(** * analyze_and_generate: detection, template selection and rendering

    A shallow embedding of [tools/analyze_and_generate.py] and the proofs of
    the properties its specification states.

    Conventions of the model.
    - A Python [str] is the [string] of its UTF-8 bytes; concatenation,
      comparison, search and [str.replace] on code points and on UTF-8 bytes
      agree.
    - A [pathlib] path is the list of its parts, [p / a] appends a part.
    - The file system is a finite map from paths to nodes.  A node is a
      directory or a regular file; a file carries the text that the
      [read_text] call of the program returns for it, or nothing when that
      call raises (permissions, undecodable bytes).
    - Python exceptions are the [Raise] outcome of a state-and-exception
      monad; [try ... except Exception] is [try_except].
    - [re.search], [json.loads] and [repr] are parameters of the
      development, and so are the working directory [ROOT], the resolved
      path [THIS] of the script and the environment.
    - Console output ([print]) is not part of the model. *)

From Stdlib Require Import String Ascii List Bool ZArith Lia SpecFloat.
From stdpp Require Import base option list strings gmap.

(** ** Characters and strings *)

Definition dquote : string := String "034"%char EmptyString.
Definition bslash : string := String "092"%char EmptyString.
Definition newline : string := String "010"%char EmptyString.
Definition lbrace : ascii := "{"%char.
Definition rbrace : ascii := "}"%char.

(** [str.replace(old, new)] for a non-empty [old]: scan from the left, at each
    position where [old] starts emit [new] and jump over the occurrence
    ([skip] counts the characters of the occurrence still to drop). *)
Fixpoint replace_from (old new : string) (skip : nat) (s : string) : string :=
  match s with
  | EmptyString => EmptyString
  | String c s' =>
      match skip with
      | S n => replace_from old new n s'
      | O =>
          if String.prefix old s
          then new +:+ replace_from old new (String.length old - 1) s'
          else String c (replace_from old new 0 s')
      end
  end.

(** [str.replace] with an empty [old] puts [new] around every character. *)
Fixpoint replace_empty (new s : string) : string :=
  match s with
  | EmptyString => new
  | String c s' => new +:+ String c (replace_empty new s')
  end.

Definition str_replace (s old new : string) : string :=
  match old with
  | EmptyString => replace_empty new s
  | String _ _ => replace_from old new 0 s
  end.

(** ["\n".join(lines)] and friends. *)
Definition str_join (sep : string) (l : list string) : string :=
  String.concat sep l.

(** A line boundary of [str.splitlines] starts here: LF, VT, FF, CR, FS, GS,
    RS, and NEL, LS, PS in their UTF-8 form. *)
Definition at_linebreak (s : string) : bool :=
  match s with
  | EmptyString => false
  | String c _ =>
      let n := nat_of_ascii c in
      ((10 <=? n) && (n <=? 13)) || ((28 <=? n) && (n <=? 30))
      || String.prefix (String "194"%char (String "133"%char EmptyString)) s
      || String.prefix (String "226"%char (String "128"%char (String "168"%char EmptyString))) s
      || String.prefix (String "226"%char (String "128"%char (String "169"%char EmptyString))) s
  end.

Fixpoint line_prefix (s : string) : string :=
  match s with
  | EmptyString => EmptyString
  | String c s' => if at_linebreak s then EmptyString else String c (line_prefix s')
  end.

(** [s.splitlines()[0]]: [None] stands for the [IndexError] on an empty text. *)
Definition first_line (s : string) : option string :=
  match s with
  | EmptyString => None
  | String _ _ => Some (line_prefix s)
  end.

(** [sorted] on a list of strings (code-point order, which is the byte order
    of the UTF-8 form). *)
Fixpoint insert_sorted (x : string) (l : list string) : list string :=
  match l with
  | [] => [x]
  | y :: l' => if String.leb x y then x :: l else y :: insert_sorted x l'
  end.

Definition sorted (l : list string) : list string :=
  foldr insert_sorted [] l.

(** ** Python values *)

#[local] Set Warnings "-register-all".

Inductive pyval : Type :=
  | PNone
  | PBool (b : bool)
  | PInt (z : Z)
  | PFloat (f : spec_float)
  | PStr (s : string)
  | PList (l : list pyval)
  | PDict (d : list (string * pyval)).

(** A [dict] with string keys keeps insertion order. *)
Definition dict : Type := list (string * pyval).

Fixpoint dict_get (d : dict) (k : string) : option pyval :=
  match d with
  | [] => None
  | (k', v) :: d' => if String.eqb k k' then Some v else dict_get d' k
  end.

(** [d[k] = v]: overwrite in place, or append a new key. *)
Fixpoint dict_set (d : dict) (k : string) (v : pyval) : dict :=
  match d with
  | [] => [(k, v)]
  | (k', v') :: d' =>
      if String.eqb k k' then (k', v) :: d' else (k', v') :: dict_set d' k v
  end.

(** [d.update(e)] and [{**d, **e}]. *)
Definition dict_update (d e : dict) : dict :=
  fold_left (fun acc kv => dict_set acc (fst kv) (snd kv)) e d.

(** Truth value of a Python object. *)
Definition truthy (v : pyval) : bool :=
  match v with
  | PNone => false
  | PBool b => b
  | PInt z => negb (Z.eqb z 0)
  | PFloat f => match f with S754_zero _ => false | _ => true end
  | PStr s => negb (String.eqb s EmptyString)
  | PList l => match l with [] => false | _ => true end
  | PDict d => match d with [] => false | _ => true end
  end.

(** [a or b]. *)
Definition py_or (a b : pyval) : pyval := if truthy a then a else b.

(** The value of [o] where [None] is Python's [None]. *)
Definition of_option (o : option pyval) : pyval := default PNone o.
Definition of_str_option (o : option string) : pyval :=
  match o with Some s => PStr s | None => PNone end.

(** ** Outcomes and the state-and-exception monad *)

Inductive outcome (A : Type) : Type :=
  | Ret (a : A)
  | Raise.
Arguments Ret {A} a.
Arguments Raise {A}.

Definition M (S A : Type) : Type := S -> outcome A * S.

Definition ret {S A} (a : A) : M S A := fun s => (Ret a, s).
Definition bind {S A B} (m : M S A) (k : A -> M S B) : M S B :=
  fun s => match m s with
           | (Ret a, s') => k a s'
           | (Raise, s') => (Raise, s')
           end.
Definition modify {S} (f : S -> S) : M S unit := fun s => (Ret tt, f s).
Definition lift {S A} (o : outcome A) : M S A := fun s => (o, s).
(** [try: body except Exception: handler]; the handler runs in the state the
    body had reached when it raised. *)
Definition try_except {S A} (body handler : M S A) : M S A :=
  fun s => match body s with
           | (Ret a, s') => (Ret a, s')
           | (Raise, s') => handler s'
           end.

Declare Scope py_scope.
Delimit Scope py_scope with py.
Notation "'let!' x ':=' m 'in' k" := (bind m (fun x => k))
  (at level 10, x name, m at level 100, k at level 200) : py_scope.
Notation "m '>>' k" := (bind m (fun _ => k))
  (at level 100, k at level 200, right associativity) : py_scope.

Definition of_opt {A} (o : option A) : outcome A :=
  match o with Some a => Ret a | None => Raise end.

(** ** Paths and the file system *)

Abbreviation Path := (list string).

Definition pjoin (p : Path) (a : string) : Path := p ++ [a].
Infix "//" := pjoin (at level 40, left associativity).

Definition parent (p : Path) : Path := removelast p.

(** [str(path)] of a POSIX path: the anchor, then the other parts joined by
    a slash. *)
Definition path_str (p : Path) : string :=
  match p with
  | [] => "."
  | a :: rest =>
      if String.prefix "/" a then a +:+ str_join "/" rest
      else str_join "/" p
  end.

Inductive node : Type :=
  | Dir
  | File (text : option string).

Abbreviation FS := (gmap (list string) node).

Definition path_exists (fs : FS) (p : Path) : bool :=
  match fs !! p with Some _ => true | None => false end.

Definition is_file (fs : FS) (p : Path) : bool :=
  match fs !! p with Some (File _) => true | _ => false end.

(** [p.read_text(...)] *)
Definition read_text (fs : FS) (p : Path) : outcome string :=
  match fs !! p with
  | Some (File (Some s)) => Ret s
  | _ => Raise
  end.

(** [p.write_text(s)]: the parent must be a directory and [p] must not be
    one. *)
Definition write_text (p : Path) (s : string) : M FS unit :=
  fun fs =>
    match fs !! parent p, fs !! p with
    | Some Dir, Some Dir => (Raise, fs)
    | Some Dir, _ => (Ret tt, <[p := File (Some s)]> fs)
    | _, _ => (Raise, fs)
    end.

(** [p.mkdir(exist_ok=True, parents=True)] *)
Definition mkdir_exist_ok (p : Path) : M FS unit :=
  fun fs =>
    match fs !! p with
    | None => (Ret tt, <[p := Dir]> fs)
    | Some Dir => (Ret tt, fs)
    | Some (File _) => (Raise, fs)
    end.

(** The names of the regular files directly under [root]:
    [{p.name for p in root.glob("*") if p.is_file()}]. *)
Definition child_file_name (root : Path) (e : Path * node) : option string :=
  match e with
  | (p, File _) =>
      match last p with
      | Some n => if decide (p = root // n) then Some n else None
      | None => None
      end
  | (_, Dir) => None
  end.

Definition glob_files (fs : FS) (root : Path) : gset string :=
  list_to_set (omap (child_file_name root) (map_to_list fs)).

(** ** The program *)

Record DetectionResult : Type := {
  language : option string;
  details : dict;
  found_files : list string
}.

Definition set_language (l : string) : M DetectionResult unit :=
  modify (fun res => {| language := Some l; details := details res;
                        found_files := found_files res |}).

(** [res["details"][k] = v] *)
Definition set_detail (k : string) (v : pyval) : M DetectionResult unit :=
  modify (fun res => {| language := language res;
                        details := dict_set (details res) k v;
                        found_files := found_files res |}).

(** [res["details"].update(e)] *)
Definition update_details (e : dict) : M DetectionResult unit :=
  modify (fun res => {| language := language res;
                        details := dict_update (details res) e;
                        found_files := found_files res |}).

(** [pkg.get(k, dflt)]: an [AttributeError] unless [pkg] is a [dict]. *)
Definition py_get (pkg : pyval) (k : string) (dflt : pyval) : outcome pyval :=
  match pkg with
  | PDict d => Ret (default dflt (dict_get d k))
  | _ => Raise
  end.

(** A template bundle: the value type of the table in [choose_templates]. *)
Record bundle : Type := {
  docker : Path;
  jenkins : Path;
  gitlab : Path;
  build_cmd : string;
  test_cmd : string;
  cache : string
}.

(** [tpl.get(key)] for the keys that hold paths. *)
Definition bundle_get (tpl : bundle) (key : string) : option Path :=
  if String.eqb key "docker" then Some (docker tpl)
  else if String.eqb key "jenkins" then Some (jenkins tpl)
  else if String.eqb key "gitlab" then Some (gitlab tpl)
  else None.

Definition pat_maven_source : string :=
  "<maven\.compiler\.source>([^<]+)</maven\.compiler\.source>".
Definition pat_java_version : string :=
  "<java\.version>([^<]+)</java\.version>".
Definition pat_python : string :=
  "python\s*=\s*" +:+ bslash +:+ dquote +:+ "([^" +:+ bslash +:+ dquote
  +:+ "]+)" +:+ bslash +:+ dquote.

Section Program.

(** [ROOT = Path.cwd()], and the templates directory that the start-up
    statements have found (see [locate_templates] below). *)
Variable ROOT : Path.
Variable TEMPLATES : Path.
(** [os.environ] *)
Variable environ : gmap string string.
(** [re.search(pattern, text)]: group 1 of the leftmost match, if any. *)
Variable re_search : string -> string -> option string.
(** [json.loads(text)]: [None] when it raises. *)
Variable json_loads : string -> option pyval.
(** [repr] of a Python value. *)
Variable py_repr : pyval -> string.

Local Open Scope py_scope.

(** [str(v)], also what an f-string inserts for [{v}]. *)
Definition py_str (v : pyval) : string :=
  match v with
  | PStr s => s
  | _ => py_repr v
  end.

Definition OUT : Path := ROOT // ".ci-generated".

Definition detect_body (root : Path) (fs : FS) : M DetectionResult unit :=
  if path_exists fs (root // "pom.xml") || path_exists fs (root // "build.gradle")
     || path_exists fs (root // "build.gradle.kts")
  then
    set_language "java" >>
    if path_exists fs (root // "pom.xml") then
      try_except
        (let! content := lift (read_text fs (root // "pom.xml")) in
         let m := re_search pat_maven_source content in
         let m := match m with
                  | None => re_search pat_java_version content
                  | Some _ => m
                  end in
         set_detail "java_version" (of_str_option m))
        (set_detail "java_version" PNone)
    else ret tt
  else if path_exists fs (root // "go.mod") then
    set_language "go" >>
    try_except
      (let! text := lift (read_text fs (root // "go.mod")) in
       let! first := lift (of_opt (first_line text)) in
       set_detail "go_mod_first" (PStr first))
      (set_detail "go_mod_first" PNone)
  else if path_exists fs (root // "package.json") then
    set_language "node" >>
    try_except
      (let! text := lift (read_text fs (root // "package.json")) in
       let! pkg := lift (of_opt (json_loads text)) in
       let! name := lift (py_get pkg "name" PNone) in
       set_detail "name" name >>
       let! scripts := lift (py_get pkg "scripts" (PDict [])) in
       set_detail "scripts" scripts >>
       let! engines := lift (py_get pkg "engines" PNone) in
       set_detail "engines" engines)
      (update_details [("name", PNone); ("scripts", PDict []); ("engines", PNone)])
  else if existsb (fun f => path_exists fs (root // f))
                  ["pyproject.toml"; "requirements.txt"; "setup.py"] then
    set_language "python" >>
    if path_exists fs (root // "pyproject.toml") then
      try_except
        (let! txt := lift (read_text fs (root // "pyproject.toml")) in
         let m := re_search pat_python txt in
         set_detail "python_requires" (of_str_option m))
        (set_detail "python_requires" PNone)
    else ret tt
  else
    set_language "unknown".

Definition detect_language (root : Path) (fs : FS) : outcome DetectionResult :=
  let files := glob_files fs root in
  let res := {| language := None; details := [];
                found_files := sorted (elements files) |} in
  match detect_body root fs res with
  | (Ret _, res') => Ret res'
  | (Raise, _) => Raise
  end.

Definition template_table : list (string * bundle) :=
  [ ("java",
     {| docker := TEMPLATES // "docker" // "Dockerfile.java";
        jenkins := TEMPLATES // "jenkins" // "Jenkinsfile.java";
        gitlab := TEMPLATES // "gitlab" // ".gitlab-ci.java.yml";
        build_cmd := "mvn -B -DskipTests=false clean package";
        test_cmd := "mvn test";
        cache := "~/.m2/repository" |});
    ("go",
     {| docker := TEMPLATES // "docker" // "Dockerfile.go";
        jenkins := TEMPLATES // "jenkins" // "Jenkinsfile.go";
        gitlab := TEMPLATES // "gitlab" // ".gitlab-ci.go.yml";
        build_cmd := "go build -v ./...";
        test_cmd := "go test ./...";
        cache := "$GOMODCACHE" |});
    ("node",
     {| docker := TEMPLATES // "docker" // "Dockerfile.node";
        jenkins := TEMPLATES // "jenkins" // "Jenkinsfile.node";
        gitlab := TEMPLATES // "gitlab" // ".gitlab-ci.node.yml";
        build_cmd := "npm ci && npm run build || true";
        test_cmd := "npm test";
        cache := "~/.npm" |});
    ("python",
     {| docker := TEMPLATES // "docker" // "Dockerfile.python";
        jenkins := TEMPLATES // "jenkins" // "Jenkinsfile.python";
        gitlab := TEMPLATES // "gitlab" // ".gitlab-ci.python.yml";
        build_cmd := "python -m pip install -r requirements.txt --user";
        test_cmd := "pytest -q";
        cache := "~/.cache/pip" |}) ].

Fixpoint table_get (t : list (string * bundle)) (k : string) : option bundle :=
  match t with
  | [] => None
  | (k', b) :: t' => if String.eqb k k' then Some b else table_get t' k
  end.

(** [map_.get(lang)] *)
Definition choose_templates (lang : option string) : option bundle :=
  match lang with
  | Some l => table_get template_table l
  | None => None
  end.

(** The loop of [render_template]: one [str.replace] per item, in the
    order of the dictionary. *)
Definition substitute (s : string) (vars : dict) : string :=
  fold_left
    (fun s kv => str_replace s ("{{" +:+ fst kv +:+ "}}") (py_str (snd kv)))
    vars s.

Definition render_template (fs : FS) (path : option Path) (vars : dict)
  : outcome (option string) :=
  match path with
  | None => Ret None
  | Some p =>
      if negb (path_exists fs p) then Ret None
      else match read_text fs p with
           | Ret s => Ret (Some (substitute s vars))
           | Raise => Raise
           end
  end.

(** The fallback bundle of [main] for a tag without an entry in the table. *)
Definition generic_bundle : bundle :=
  {| docker := TEMPLATES // "docker" // "Dockerfile.generic";
     jenkins := TEMPLATES // "jenkins" // "Jenkinsfile.generic";
     gitlab := TEMPLATES // "gitlab" // ".gitlab-ci.generic.yml";
     build_cmd := "echo " +:+ dquote +:+ "No build configured" +:+ dquote;
     test_cmd := "echo " +:+ dquote +:+ "No tests configured" +:+ dquote;
     cache := EmptyString |}.

Definition no_template_line : string :=
  "No built-in template for detected language. Provide justification to add support.".

(** [tpl] after the [if not tpl:] block of [main]. *)
Definition main_bundle (info : DetectionResult) : bundle :=
  match choose_templates (language info) with
  | Some tpl => tpl
  | None => generic_bundle
  end.

(** [report_lines] when the rendering loop starts. *)
Definition main_report_head (info : DetectionResult) : list string :=
  let report_lines :=
    [ "language: " +:+ match language info with Some l => l | None => "None" end;
      "found_files: " +:+ py_str (PList (map PStr (found_files info))) ] in
  match choose_templates (language info) with
  | Some _ => report_lines
  | None => report_lines ++ [no_template_line]
  end.

(** [info.get("details", {}).get("name") or "local-project"] *)
Definition main_project_name (info : DetectionResult) : pyval :=
  py_or (of_option (dict_get (details info) "name")) (PStr "local-project").

(** [os.environ.get(k, dflt)] *)
Definition env_get (k dflt : string) : string := default dflt (environ !! k).

(** The dictionary [vars] of [main]. *)
Definition main_vars (info : DetectionResult) : dict :=
  let tpl := main_bundle info in
  let project_name := main_project_name info in
  dict_update
    [ ("BUILD_CMD", PStr (build_cmd tpl));
      ("TEST_CMD", PStr (test_cmd tpl));
      ("CACHE_DIR", PStr (cache tpl));
      ("PROJECT_NAME", project_name);
      ("IMAGE_NAME",
       py_or (of_str_option (environ !! "CI_REGISTRY_IMAGE"))
             (PStr (py_str project_name +:+ ":latest")));
      ("SONAR_HOST", PStr (env_get "SONAR_HOST" "http://sonarqube:9000"));
      ("NEXUS_URL", PStr (env_get "NEXUS_URL" "http://nexus:8081")) ]
    (details info).

(** [d[k]]: a [KeyError] when the key is missing. *)
Definition dict_item (d : dict) (k : string) : outcome pyval :=
  of_opt (dict_get d k).

Definition bind_o {A B} (o : outcome A) (k : A -> outcome B) : outcome B :=
  match o with Ret a => k a | Raise => Raise end.

(** The dictionary that [main] passes to [render_template]. *)
Definition render_args (vars : dict) : outcome dict :=
  bind_o (dict_item vars "BUILD_CMD") (fun b =>
  bind_o (dict_item vars "TEST_CMD") (fun t =>
  bind_o (dict_item vars "CACHE_DIR") (fun c =>
  bind_o (dict_item vars "IMAGE_NAME") (fun i =>
  bind_o (dict_item vars "SONAR_HOST") (fun s =>
  bind_o (dict_item vars "NEXUS_URL") (fun n =>
  Ret [ ("BUILD_CMD", b); ("TEST_CMD", t); ("CACHE_DIR", c);
        ("IMAGE_NAME", i); ("SONAR_HOST", s); ("NEXUS_URL", n) ])))))).

Definition outputs : list (string * Path) :=
  [ ("docker", OUT // "Dockerfile");
    ("jenkins", OUT // "Jenkinsfile");
    ("gitlab", OUT // ".gitlab-ci.yml") ].

Definition not_found_line (key : string) (tpl_path : option Path) : string :=
  "Template for " +:+ key +:+ " not found: "
  +:+ match tpl_path with Some p => path_str p | None => "None" end.

Definition wrote_line (out_path : Path) : string :=
  "Wrote " +:+ path_str out_path.

(** [for key, out_path in outputs.items(): ...] *)
Fixpoint render_loop (items : list (string * Path)) (tpl : bundle) (vars : dict)
    (report_lines : list string) : M FS (list string) :=
  match items with
  | [] => ret report_lines
  | (key, out_path) :: rest =>
      let tpl_path := bundle_get tpl key in
      let! args := lift (render_args vars) in
      let! content := (fun fs => (render_template fs tpl_path args, fs)) in
      match content with
      | None =>
          render_loop rest tpl vars
            (report_lines ++ [not_found_line key tpl_path])
      | Some c =>
          write_text out_path c >>
          render_loop rest tpl vars (report_lines ++ [wrote_line out_path])
      end
  end.

(** The template paths of a bundle. *)
Definition template_paths (tpl : bundle) : list Path :=
  [docker tpl; jenkins tpl; gitlab tpl].

(** The text of the template at [path] when it is a readable file. *)
Definition template_text (fs : FS) (path : option Path) : option string :=
  match path with
  | Some p =>
      match fs !! p with
      | Some (File (Some s)) => Some s
      | _ => None
      end
  | None => None
  end.

(** The output paths are pairwise distinct, none is the directory of
    another, and none is a template. *)
Definition loop_wf (tpl : bundle) (items : list (string * Path)) : Prop :=
  NoDup (map snd items)
  /\ (forall out, In out (map snd items) -> ~ In (parent out) (map snd items))
  /\ (forall p, In p (template_paths tpl) -> ~ In p (map snd items)).

(** Every file the script writes. *)
Definition out_files : list Path :=
  map snd outputs ++ [OUT // "report.txt"].

(** The six entries that [main] hands to the renderer. *)
Definition main_render_context (info : DetectionResult) : dict :=
  let tpl := main_bundle info in
  let project_name := main_project_name info in
  [ ("BUILD_CMD", PStr (build_cmd tpl));
    ("TEST_CMD", PStr (test_cmd tpl));
    ("CACHE_DIR", PStr (cache tpl));
    ("IMAGE_NAME",
     py_or (of_str_option (environ !! "CI_REGISTRY_IMAGE"))
           (PStr (py_str project_name +:+ ":latest")));
    ("SONAR_HOST", PStr (env_get "SONAR_HOST" "http://sonarqube:9000"));
    ("NEXUS_URL", PStr (env_get "NEXUS_URL" "http://nexus:8081")) ].

(** No input or output operation of the run fails: the output directory is
    missing or a directory, every template of the run is missing or a
    readable file, and no output file is a directory. *)
Definition io_ok (fs : FS) (info : DetectionResult) : Prop :=
  (fs !! OUT = None \/ fs !! OUT = Some Dir)
  /\ (forall p, In p (template_paths (main_bundle info)) ->
        fs !! p = None \/ exists s, fs !! p = Some (File (Some s)))
  /\ (forall p, In p out_files -> fs !! p <> Some Dir).

Definition main : M FS unit :=
  let! info := (fun fs => (detect_language ROOT fs, fs)) in
  let! report_lines :=
    render_loop outputs (main_bundle info) (main_vars info)
                (main_report_head info) in
  write_text (OUT // "report.txt") (str_join newline report_lines).

(** The run once the templates directory is known: the output directory is
    created, then [main()] runs. *)
Definition script : M FS unit :=
  mkdir_exist_ok OUT >> main.

End Program.

(** [p.parents[i]]: an [IndexError] when [p] has no such ancestor. *)
Definition py_parents (p : Path) (i : nat) : outcome Path :=
  if i + 1 <? length p then Ret (take (length p - (i + 1)) p) else Raise.

(** The start-up search for the templates directory, from the resolved path
    [this] of the script. *)
Definition locate_templates (this : Path) : M FS Path :=
  fun fs =>
    match py_parents this 1 with
    | Raise => (Raise, fs)
    | Ret p1 =>
        if path_exists fs (p1 // "templates") then (Ret (p1 // "templates"), fs)
        else
          match py_parents this 2 with
          | Raise => (Raise, fs)
          | Ret p2 =>
              if path_exists fs (p2 // "templates")
              then (Ret (p2 // "templates"), fs)
              else (Ret (parent this // "templates"), fs)
          end
    end.

(** The whole script: the start-up statements, then [main()]. *)
Definition program (ROOT THIS : Path) (environ : gmap string string)
    (re_search : string -> string -> option string)
    (json_loads : string -> option pyval) (py_repr : pyval -> string)
  : M FS unit :=
  (mkdir_exist_ok (OUT ROOT) >>
   let! TEMPLATES := locate_templates THIS in
   main ROOT TEMPLATES environ re_search json_loads py_repr)%py.

(** The names the script gives to what it creates. *)
Definition output_names : list string :=
  ["Dockerfile"; "Jenkinsfile"; ".gitlab-ci.yml"; "report.txt"; ".ci-generated"].

Definition is_output_name (n : string) : bool :=
  existsb (String.eqb n) output_names.

(** ** The detector, in the words of the specification *)

(** The ecosystem tags. *)
Definition tags : list string := ["java"; "go"; "node"; "python"; "unknown"].

(** The marker files, in the order of their priority. *)
Definition markers : list string :=
  [ "pom.xml"; "build.gradle"; "build.gradle.kts"; "go.mod"; "package.json";
    "pyproject.toml"; "requirements.txt"; "setup.py" ].

(** The tag that owns a marker file. *)
Definition marker_owner (m : string) : string :=
  if existsb (String.eqb m) ["pom.xml"; "build.gradle"; "build.gradle.kts"] then "java"
  else if String.eqb m "go.mod" then "go"
  else if String.eqb m "package.json" then "node"
  else "python".

(** First match wins: the owner of the first marker, in priority order, that
    exists under [root]; ["unknown"] when none does. *)
Definition marker_tag (fs : FS) (root : Path) : string :=
  match find (fun m => path_exists fs (root // m)) markers with
  | Some m => marker_owner m
  | None => "unknown"
  end.

Section Detection.

Variable re_search : string -> string -> option string.
Variable json_loads : string -> option pyval.

(** What the auxiliary step extracts, [None] when the manifest cannot be read
    or the search finds nothing. *)
Definition java_version_of (fs : FS) (root : Path) : option string :=
  match read_text fs (root // "pom.xml") with
  | Ret content =>
      match re_search pat_maven_source content with
      | Some v => Some v
      | None => re_search pat_java_version content
      end
  | Raise => None
  end.

Definition go_mod_first_of (fs : FS) (root : Path) : option string :=
  match read_text fs (root // "go.mod") with
  | Ret text => first_line text
  | Raise => None
  end.

Definition python_requires_of (fs : FS) (root : Path) : option string :=
  match read_text fs (root // "pyproject.toml") with
  | Ret txt => re_search pat_python txt
  | Raise => None
  end.

(** The parsed [package.json] when it is a JSON object. *)
Definition package_of (fs : FS) (root : Path) : option dict :=
  match read_text fs (root // "package.json") with
  | Ret text =>
      match json_loads text with
      | Some (PDict d) => Some d
      | _ => None
      end
  | Raise => None
  end.

Definition node_details (pkg : option dict) : dict :=
  match pkg with
  | Some d =>
      [ ("name", default PNone (dict_get d "name"));
        ("scripts", default (PDict []) (dict_get d "scripts"));
        ("engines", default PNone (dict_get d "engines")) ]
  | None => [("name", PNone); ("scripts", PDict []); ("engines", PNone)]
  end.

(** The ways the auxiliary step comes out empty-handed: the manifest cannot
    be read, cannot be parsed, or holds nothing that matches. *)
Definition pom_unusable (fs : FS) (root : Path) : Prop :=
  read_text fs (root // "pom.xml") = Raise
  \/ exists content, read_text fs (root // "pom.xml") = Ret content
       /\ re_search pat_maven_source content = None
       /\ re_search pat_java_version content = None.

Definition go_mod_unusable (fs : FS) (root : Path) : Prop :=
  read_text fs (root // "go.mod") = Raise
  \/ read_text fs (root // "go.mod") = Ret EmptyString.

Definition package_unusable (fs : FS) (root : Path) : Prop :=
  read_text fs (root // "package.json") = Raise
  \/ exists text, read_text fs (root // "package.json") = Ret text
       /\ (json_loads text = None
           \/ exists v, json_loads text = Some v /\ forall d, v <> PDict d).

Definition pyproject_unusable (fs : FS) (root : Path) : Prop :=
  read_text fs (root // "pyproject.toml") = Raise
  \/ exists txt, read_text fs (root // "pyproject.toml") = Ret txt
       /\ re_search pat_python txt = None.

(** [package.json] is a JSON object without a ["name"] member. *)
Definition package_nameless (fs : FS) (root : Path) : Prop :=
  exists text d, read_text fs (root // "package.json") = Ret text
    /\ json_loads text = Some (PDict d)
    /\ dict_get d "name" = None.

(** The details dictionary of a detection, by tag. *)
Definition details_of (fs : FS) (root : Path) : dict :=
  let tag := marker_tag fs root in
  if String.eqb tag "java" then
    if path_exists fs (root // "pom.xml")
    then [("java_version", of_str_option (java_version_of fs root))]
    else []
  else if String.eqb tag "go" then
    [("go_mod_first", of_str_option (go_mod_first_of fs root))]
  else if String.eqb tag "node" then node_details (package_of fs root)
  else if String.eqb tag "python" then
    if path_exists fs (root // "pyproject.toml")
    then [("python_requires", of_str_option (python_requires_of fs root))]
    else []
  else [].

End Detection.

(** ** Templates as literal text and tokens *)

Inductive segment : Type :=
  | Lit (text : string)
  | Tok (name : string).

Definition token (name : string) : string := "{{" +:+ name +:+ "}}".

Definition seg_text (g : segment) : string :=
  match g with
  | Lit t => t
  | Tok n => token n
  end.

Definition flatten (segs : list segment) : string :=
  fold_right (fun g acc => seg_text g +:+ acc) EmptyString segs.

(** No brace in [s]. *)
Fixpoint brace_free (s : string) : bool :=
  match s with
  | EmptyString => true
  | String c s' =>
      negb (Ascii.eqb c lbrace) && negb (Ascii.eqb c rbrace) && brace_free s'
  end.

(** Every opening brace of [s] is followed, in [s], by a character that is
    not an opening brace. *)
Fixpoint lit_ok (s : string) : bool :=
  match s with
  | EmptyString => true
  | String c s' =>
      (if Ascii.eqb c lbrace
       then match s' with
            | EmptyString => false
            | String d _ => negb (Ascii.eqb d lbrace)
            end
       else true)
      && lit_ok s'
  end.

Definition seg_ok (g : segment) : bool :=
  match g with
  | Lit t => lit_ok t
  | Tok n => brace_free n
  end.

Section Rendering.

Variable py_repr : pyval -> string.

(** What the specification asks of the renderer, segment by segment: a token
    whose name is a key becomes the string of its value, everything else
    stays. *)
Definition subst_seg (vars : dict) (g : segment) : segment :=
  match g with
  | Lit t => Lit t
  | Tok n =>
      match dict_get vars n with
      | Some v => Lit (py_str py_repr v)
      | None => Tok n
      end
  end.

Definition render_spec (vars : dict) (segs : list segment) : string :=
  flatten (map (subst_seg vars) segs).

(** Keys without braces, and values whose strings are well-formed literal
    text. *)
Definition ctx_ok (vars : dict) : bool :=
  forallb (fun kv => brace_free (fst kv) && lit_ok (py_str py_repr (snd kv)))
          vars.

(** One [str.replace] of the loop, on segments. *)
Definition step_seg (k v : string) (g : segment) : segment :=
  match g with
  | Lit t => Lit t
  | Tok n => if String.eqb n k then Lit v else Tok n
  end.

End Rendering.

(** ** A sample project *)

Definition demo_root : Path := ["/"; "work"; "demo"].
Definition demo_templates : Path := ["/"; "opt"; "tool"; "templates"].
Definition demo_this : Path :=
  ["/"; "opt"; "tool"; "tools"; "analyze_and_generate.py"].
Definition demo_re_search (pattern text : string) : option string := None.
Definition demo_json_loads (text : string) : option pyval :=
  if String.eqb text "{}" then Some (PDict []) else None.
Definition demo_repr (v : pyval) : string := "<object>".
Definition demo_environ : gmap string string := ∅.

(** A Go module: [go.mod] at the root, a container template and a CI
    template, no build-server template. *)
Definition demo_docker_text : string :=
  "RUN {{BUILD_CMD}} # {{PROJECT_NAME}} {{UNKNOWN_VAR}}".

Definition demo_fs : FS :=
  <[demo_root := Dir]>
  (<[demo_templates := Dir]>
  (<[demo_root // "go.mod" := File (Some "module demo")]>
  (<[demo_templates // "docker" // "Dockerfile.go" := File (Some demo_docker_text)]>
  (<[demo_templates // "gitlab" // ".gitlab-ci.go.yml" := File (Some "script: {{TEST_CMD}}")]>
   ∅)))).

Definition demo_info : DetectionResult :=
  {| language := Some "go";
     details := [("go_mod_first", PStr "module demo")];
     found_files := ["go.mod"] |}.

(** A Maven project that also carries a [package.json]; the two manifests
    cannot be read. *)
Definition demo_fs_java : FS :=
  <[demo_root := Dir]>
  (<[demo_root // "pom.xml" := File None]>
  (<[demo_root // "package.json" := File None]> ∅)).

(** A project without any marker file. *)
Definition demo_fs_plain : FS :=
  <[demo_root := Dir]> (<[demo_root // "README.md" := File (Some "demo")]> ∅).

(** A Go module with an empty [go.mod]. *)
Definition demo_fs_empty_go : FS :=
  <[demo_root := Dir]> (<[demo_root // "go.mod" := File (Some EmptyString)]> ∅).

(** The example of the specification, and a context whose first value
    holds the token of its second key. *)
Definition example_path : Path := demo_templates // "docker" // "Dockerfile.go".
Definition example_segs : list segment :=
  [Lit "RUN "; Tok "BUILD_CMD"; Lit " # "; Tok "PROJECT_NAME"; Lit " ";
   Tok "UNKNOWN_VAR"].
Definition example_vars : dict :=
  [("BUILD_CMD", PStr "go build ./..."); ("PROJECT_NAME", PStr "demo")].
Definition example_fs : FS :=
  <[example_path := File (Some (flatten example_segs))]> ∅.

Definition chain_segs : list segment := [Tok "A"].
Definition chain_vars : dict := [("A", PStr "{{B}}"); ("B", PStr "x")].
Definition chain_fs : FS :=
  <[example_path := File (Some (flatten chain_segs))]> ∅.

(** A template in which the text around a token closes into another token
    once the first one is gone. *)
Definition splice_segs : list segment := [Lit "{{"; Tok "A"; Lit "B}}"].
Definition splice_vars : dict := [("A", PStr EmptyString); ("B", PStr "x")].
Definition splice_fs : FS :=
  <[example_path := File (Some (flatten splice_segs))]> ∅.

(** ** Auxiliary notions for further properties *)

(** Each element is at most the next one. *)
Fixpoint is_sorted (l : list string) : bool :=
  match l with
  | [] => true
  | x :: l' =>
      match l' with
      | [] => true
      | y :: _ => String.leb x y && is_sorted l'
      end
  end.

(** [old in s]: [old] starts somewhere in [s]. *)
Fixpoint occurs (old s : string) : bool :=
  String.prefix old s
  || match s with
     | EmptyString => false
     | String _ s' => occurs old s'
     end.

(** The report line of one output kind. *)
Definition item_line (fs : FS) (tpl : bundle) (item : string * Path) : string :=
  match template_text fs (bundle_get tpl (fst item)) with
  | Some _ => wrote_line (snd item)
  | None => not_found_line (fst item) (bundle_get tpl (fst item))
  end.

(** What is at the output path of one kind after a run that completes. *)
Definition item_node (py_repr : pyval -> string) (fs : FS) (tpl : bundle)
    (args : dict) (item : string * Path) : option node :=
  match template_text fs (bundle_get tpl (fst item)) with
  | Some s => Some (File (Some (substitute py_repr s args)))
  | None => fs !! snd item
  end.

(** Nothing disappears and no directory is replaced. *)
Definition grows (fs fs' : FS) : Prop :=
  forall p, (fs !! p = Some Dir -> fs' !! p = Some Dir)
            /\ (fs !! p <> None -> fs' !! p <> None).

(** ** Further sample projects *)

Definition sample_pom : string :=
  "<project><properties><maven.compiler.source>17</maven.compiler.source><java.version>11</java.version></properties></project>".

Definition sample_pyproject : string :=
  "[tool.poetry.dependencies] python = " +:+ dquote +:+ "^3.11" +:+ dquote.

Definition sample_package : string :=
  "{" +:+ dquote +:+ "name" +:+ dquote +:+ ": " +:+ dquote +:+ "shop"
  +:+ dquote +:+ "}".

(** A search that knows the two sample manifests. *)
Definition sample_re_search (pattern text : string) : option string :=
  if String.eqb text sample_pom then
    if String.eqb pattern pat_maven_source then Some "17"
    else if String.eqb pattern pat_java_version then Some "11"
    else None
  else if String.eqb text sample_pyproject then
    if String.eqb pattern pat_python then Some "^3.11" else None
  else None.

Definition sample_json_loads (text : string) : option pyval :=
  if String.eqb text sample_package
  then Some (PDict [("name", PStr "shop")])
  else None.

(** A Maven project with both version properties in its [pom.xml]. *)
Definition sample_fs_maven : FS :=
  <[demo_root := Dir]>
  (<[demo_root // "pom.xml" := File (Some sample_pom)]> ∅).

(** A node package that also carries a [requirements.txt]. *)
Definition sample_fs_node : FS :=
  <[demo_root := Dir]>
  (<[demo_root // "package.json" := File (Some sample_package)]>
  (<[demo_root // "requirements.txt" := File (Some "flask")]> ∅)).

Definition sample_fs_python : FS :=
  <[demo_root := Dir]>
  (<[demo_root // "pyproject.toml" := File (Some sample_pyproject)]> ∅).

(** The sample Go module with one more file and one more directory. *)
Definition sample_fs_readme : FS :=
  <[demo_root // "README.md" := File (Some "demo")]>
  (<[demo_root // "cmd" := Dir]> demo_fs).

(** The sample Go module with a regular file in the place of the output
    directory. *)
Definition sample_fs_out_file : FS :=
  <[demo_root // ".ci-generated" := File (Some "stale")]> demo_fs.

(** The sample Go module with a directory in the place of its CI template. *)
Definition sample_fs_unreadable : FS :=
  <[demo_templates // "gitlab" // ".gitlab-ci.go.yml" := Dir]> demo_fs.

Definition sample_environ : gmap string string :=
  <["CI_REGISTRY_IMAGE" := "registry.local/shop"]>
  (<["SONAR_HOST" := EmptyString]> ∅).

(** A script directly under the root of the file system. *)
Definition sample_this_shallow : Path := ["/"; "analyze_and_generate.py"].

(** A context that shares no key with the sample container template. *)
Definition sample_vars_other : dict :=
  [("CACHE_DIR", PStr "/go/pkg/mod"); ("NEXUS_URL", PStr "http://nexus:8081")].

(** * Properties *)

Section DetectionFacts.

Variable re_search : string -> string -> option string.
Variable json_loads : string -> option pyval.

(** [detect_language] never raises, and its result is the one above. *)
Lemma detect_language_eq (root : Path) (fs : FS) :
  detect_language re_search json_loads root fs =
  Ret {| language := Some (marker_tag fs root);
         details := details_of re_search json_loads fs root;
         found_files := sorted (elements (glob_files fs root)) |}.
Proof.
  unfold detect_language, detect_body, details_of, marker_tag, markers.
  cbn [find existsb].
  destruct (path_exists fs (root // "pom.xml")) eqn:Epom; cbn.
  { unfold java_version_of, try_except, bind, lift, set_language, set_detail,
      modify; cbn.
    destruct (read_text fs (root // "pom.xml")); cbn; [|reflexivity].
    destruct (re_search pat_maven_source a); reflexivity. }
  destruct (path_exists fs (root // "build.gradle")); cbn; [reflexivity|].
  destruct (path_exists fs (root // "build.gradle.kts")); cbn; [reflexivity|].
  destruct (path_exists fs (root // "go.mod")); cbn.
  { unfold go_mod_first_of, try_except, bind, lift, set_language, set_detail,
      modify; cbn.
    destruct (read_text fs (root // "go.mod")); cbn; [|reflexivity].
    destruct (first_line a); reflexivity. }
  destruct (path_exists fs (root // "package.json")); cbn.
  { unfold package_of, try_except, bind, lift, set_language, set_detail,
      update_details, modify; cbn.
    destruct (read_text fs (root // "package.json")); cbn; [|reflexivity].
    destruct (json_loads a) as [[]|]; reflexivity. }
  destruct (path_exists fs (root // "pyproject.toml")) eqn:Epy; cbn.
  { unfold python_requires_of, try_except, bind, lift, set_language,
      set_detail, modify; cbn.
    destruct (read_text fs (root // "pyproject.toml")); reflexivity. }
  destruct (path_exists fs (root // "requirements.txt")); cbn; [reflexivity|].
  destruct (path_exists fs (root // "setup.py")); reflexivity.
Qed.

End DetectionFacts.

(** ** Paths *)

Lemma pjoin_inj (p q : Path) (a b : string) :
  p // a = q // b -> p = q /\ a = b.
Proof. unfold pjoin. intros H. apply app_inj_tail in H. exact H. Qed.

Lemma parent_pjoin (p : Path) (a : string) : parent (p // a) = p.
Proof. unfold parent, pjoin. apply removelast_last. Qed.

Lemma last_pjoin (p : Path) (a : string) : last (p // a) = Some a.
Proof. unfold pjoin. apply last_snoc. Qed.

Lemma pjoin_ne_self (p : Path) (a : string) : p // a <> p.
Proof.
  unfold pjoin. intros H. apply (f_equal (@length string)) in H.
  rewrite length_app in H. simpl in H. lia.
Qed.

Lemma pjoin2_ne (p : Path) (a b c : string) : p // a // b <> p // c.
Proof.
  intros H. apply pjoin_inj in H as [H _]. exact (pjoin_ne_self _ _ H).
Qed.

Lemma pjoin_ne_last (p q : Path) (a b : string) : a <> b -> p // a <> q // b.
Proof. intros Hab H. apply pjoin_inj in H as [_ H]. exact (Hab H). Qed.

(** ** The file system *)

Lemma elem_of_glob_files (fs : FS) (root : Path) (n : string) :
  n ∈ glob_files fs root <-> exists t, fs !! (root // n) = Some (File t).
Proof.
  unfold glob_files. rewrite elem_of_list_to_set, list_elem_of_omap. split.
  - intros [[p nd] [Hin Hn]]. apply elem_of_map_to_list in Hin.
    unfold child_file_name in Hn. destruct nd as [|t]; [discriminate|].
    destruct (last p) as [m|]; [|discriminate].
    destruct (decide (p = root // m)) as [->|]; [|discriminate].
    injection Hn as ->. exists t. exact Hin.
  - intros [t Ht]. exists (root // n, File t). split.
    + apply elem_of_map_to_list. exact Ht.
    + unfold child_file_name. rewrite last_pjoin.
      destruct (decide (root // n = root // n)); [reflexivity|contradiction].
Qed.

Lemma glob_files_ext (fs fs' : FS) (root : Path) :
  (forall n, is_file fs (root // n) = is_file fs' (root // n)) ->
  glob_files fs root = glob_files fs' root.
Proof.
  intros H. apply set_eq. intros n. rewrite !elem_of_glob_files.
  specialize (H n). unfold is_file in H.
  destruct (fs !! (root // n)) as [[|t]|], (fs' !! (root // n)) as [[|t']|];
    try discriminate; split; intros [u Hu]; try discriminate; eauto.
Qed.

Lemma write_text_inv (p : Path) (s : string) (fs fs' : FS) (o : outcome unit) :
  write_text p s fs = (o, fs') ->
  (o = Raise /\ fs' = fs /\ (fs !! parent p <> Some Dir \/ fs !! p = Some Dir))
  \/ (o = Ret tt /\ fs' = <[p := File (Some s)]> fs
      /\ fs !! parent p = Some Dir /\ fs !! p <> Some Dir).
Proof.
  unfold write_text. intros H.
  destruct (fs !! parent p) as [[|t]|] eqn:Hpar;
    destruct (fs !! p) as [[|u]|] eqn:Hp; inversion H; subst;
    first [ right; repeat split; auto; congruence
          | left; repeat split; auto;
            first [ left; congruence | right; congruence ] ].
Qed.

Lemma write_text_same (p : Path) (s : string) (fs : FS) :
  fs !! parent p = Some Dir -> fs !! p = Some (File (Some s)) ->
  write_text p s fs = (Ret tt, fs).
Proof.
  intros Hpar Hp. unfold write_text. rewrite Hpar, Hp.
  f_equal. apply insert_id. exact Hp.
Qed.

Lemma write_text_ext (p : Path) (s : string) (fs fs' : FS) :
  fs' !! parent p = fs !! parent p -> fs' !! p = fs !! p ->
  fst (write_text p s fs') = fst (write_text p s fs).
Proof.
  intros Hpar Hp. unfold write_text. rewrite Hpar, Hp.
  destruct (fs !! parent p) as [[|t]|]; [|reflexivity..].
  destruct (fs !! p) as [[|u]|]; reflexivity.
Qed.

Lemma mkdir_exist_ok_inv (p : Path) (fs fs' : FS) (o : outcome unit) :
  mkdir_exist_ok p fs = (o, fs') ->
  (o = Raise /\ fs' = fs /\ exists t, fs !! p = Some (File t))
  \/ (o = Ret tt /\ fs' !! p = Some Dir
      /\ (forall q, q <> p -> fs' !! q = fs !! q)
      /\ (fs !! p = None \/ fs' = fs)).
Proof.
  unfold mkdir_exist_ok. intros H.
  destruct (fs !! p) as [[|t]|] eqn:Hp; inversion H; subst.
  - right. repeat split; auto.
  - left. repeat split; eauto.
  - right. repeat split; auto.
    + apply lookup_insert_eq.
    + intros q Hq. apply lookup_insert_ne. congruence.
Qed.

Section ProgramFacts.

Variable ROOT : Path.
Variable TEMPLATES : Path.
Variable environ : gmap string string.
Variable re_search : string -> string -> option string.
Variable json_loads : string -> option pyval.
Variable py_repr : pyval -> string.

(** Detection reads the marker files and the listing of the root only. *)
Lemma detect_language_ext (root : Path) (fs fs' : FS) :
  (forall m, In m markers -> fs !! (root // m) = fs' !! (root // m)) ->
  (forall n, is_file fs (root // n) = is_file fs' (root // n)) ->
  detect_language re_search json_loads root fs
  = detect_language re_search json_loads root fs'.
Proof.
  intros Hm Hf. rewrite !detect_language_eq.
  rewrite (glob_files_ext fs fs' root Hf).
  assert (Hpe : forall m, In m markers ->
            path_exists fs (root // m) = path_exists fs' (root // m)).
  { intros m Hin. unfold path_exists. rewrite (Hm m Hin). reflexivity. }
  assert (Hrd : forall m, In m markers ->
            read_text fs (root // m) = read_text fs' (root // m)).
  { intros m Hin. unfold read_text. rewrite (Hm m Hin). reflexivity. }
  assert (Htag : marker_tag fs root = marker_tag fs' root).
  { unfold marker_tag, markers. cbn [find].
    rewrite !Hpe by (simpl; tauto). reflexivity. }
  unfold details_of, java_version_of, go_mod_first_of, package_of,
    python_requires_of.
  rewrite Htag, !Hpe, !Hrd by (simpl; tauto). reflexivity.
Qed.

Lemma render_template_ext (fs fs' : FS) (path : option Path) (vars : dict) :
  (forall p, path = Some p -> fs' !! p = fs !! p) ->
  render_template py_repr fs' path vars = render_template py_repr fs path vars.
Proof.
  intros H. destruct path as [p|]; [|reflexivity].
  unfold render_template, path_exists, read_text. rewrite (H p eq_refl).
  reflexivity.
Qed.

Lemma bundle_get_in (tpl : bundle) (key : string) (p : Path) :
  bundle_get tpl key = Some p -> In p (template_paths tpl).
Proof.
  unfold bundle_get, template_paths.
  destruct (String.eqb key "docker"); [intros [= <-]; simpl; tauto|].
  destruct (String.eqb key "jenkins"); [intros [= <-]; simpl; tauto|].
  destruct (String.eqb key "gitlab"); [intros [= <-]; simpl; tauto|].
  discriminate.
Qed.

(** One turn of the loop, unfolded. *)
Lemma render_loop_cons (key : string) (out_path : Path)
    (rest : list (string * Path)) (tpl : bundle) (vars : dict)
    (lines : list string) (fs : FS) :
  render_loop py_repr ((key, out_path) :: rest) tpl vars lines fs =
  match render_args vars with
  | Raise => (Raise, fs)
  | Ret args =>
      match render_template py_repr fs (bundle_get tpl key) args with
      | Raise => (Raise, fs)
      | Ret None =>
          render_loop py_repr rest tpl vars
            (lines ++ [not_found_line key (bundle_get tpl key)]) fs
      | Ret (Some c) =>
          match write_text out_path c fs with
          | (Ret _, fs1) =>
              render_loop py_repr rest tpl vars
                (lines ++ [wrote_line out_path]) fs1
          | (Raise, fs1) => (Raise, fs1)
          end
      end
  end.
Proof.
  cbn [render_loop]. unfold bind, lift.
  destruct (render_args vars) as [args|]; [|reflexivity].
  destruct (render_template py_repr fs (bundle_get tpl key) args) as [[c|]|];
    reflexivity.
Qed.

(** The loop writes to the output paths only. *)
Lemma render_loop_frame (items : list (string * Path)) (tpl : bundle)
    (vars : dict) (lines : list string) (fs fs' : FS)
    (o : outcome (list string)) :
  render_loop py_repr items tpl vars lines fs = (o, fs') ->
  forall p, ~ In p (map snd items) -> fs' !! p = fs !! p.
Proof.
  revert lines fs. induction items as [|[key out_path] rest IH];
    intros lines fs H p Hp.
  - cbn in H. unfold ret in H. inversion H; subst. reflexivity.
  - rewrite render_loop_cons in H. cbn [map snd] in Hp.
    destruct (render_args vars) as [args|]; [|inversion H; subst; reflexivity].
    destruct (render_template py_repr fs (bundle_get tpl key) args)
      as [[c|]|]; [| |inversion H; subst; reflexivity].
    + destruct (write_text out_path c fs) as [o1 fs1] eqn:Hw.
      apply write_text_inv in Hw
        as [(-> & -> & _)|(-> & -> & _)].
      * inversion H; subst. reflexivity.
      * rewrite (IH _ _ H p) by (intros Hin; apply Hp; right; exact Hin).
        apply lookup_insert_ne. intros ->. apply Hp. left. reflexivity.
    + apply (IH _ _ H p). intros Hin. apply Hp. right. exact Hin.
Qed.

Lemma loop_wf_tail (tpl : bundle) (item : string * Path)
    (rest : list (string * Path)) :
  loop_wf tpl (item :: rest) -> loop_wf tpl rest.
Proof.
  intros (Hnd & Hpar & Htpl). cbn [map] in *. repeat split.
  - apply NoDup_cons in Hnd. tauto.
  - intros out Hin Hp. apply (Hpar out); simpl; tauto.
  - intros p Hin Hp. apply (Htpl p Hin). simpl. tauto.
Qed.

Lemma write_text_raise_ext (p : Path) (s : string) (fs fs' : FS) :
  fs' !! parent p = fs !! parent p -> fs' !! p = fs !! p ->
  write_text p s fs = (Raise, fs) -> write_text p s fs' = (Raise, fs').
Proof.
  unfold write_text. intros -> ->.
  destruct (fs !! parent p) as [[|t]|]; [|reflexivity..].
  destruct (fs !! p) as [[|u]|]; [reflexivity|discriminate..].
Qed.

(** Run on its own result, the loop does the same and changes nothing. *)
Lemma render_loop_again (items : list (string * Path)) (tpl : bundle)
    (vars : dict) :
  loop_wf tpl items ->
  forall (lines : list string) (fs fs' : FS) (o : outcome (list string)),
  render_loop py_repr items tpl vars lines fs = (o, fs') ->
  forall fs'' : FS,
  (forall q, In q (template_paths tpl) \/ In q (map snd items)
             \/ In q (map parent (map snd items)) ->
             fs'' !! q = fs' !! q) ->
  render_loop py_repr items tpl vars lines fs'' = (o, fs'').
Proof.
  induction items as [|[key out_path] rest IH]; intros Hwf lines fs fs' o H fs'' Hag.
  - cbn in H |- *. unfold ret in *. inversion H; subst. reflexivity.
  - pose proof (render_loop_frame _ _ _ _ _ _ _ H) as Hframe.
    pose proof (loop_wf_tail _ _ _ Hwf) as Hwf'.
    destruct Hwf as (Hnd & Hpar & Htpl). cbn [map snd] in *.
    apply NoDup_cons in Hnd as [Hout Hnd].
    rewrite list_elem_of_In in Hout.
    assert (Hp1 : ~ In (parent out_path) (map snd rest)).
    { intros Hin. apply (Hpar out_path); simpl; tauto. }
    assert (Hp2 : out_path <> parent out_path).
    { intros Heq. apply (Hpar out_path); simpl; tauto. }
    rewrite render_loop_cons in H. rewrite render_loop_cons.
    destruct (render_args vars) as [args|];
      [|inversion H; subst; reflexivity].
    rewrite (render_template_ext fs fs'').
    2:{ intros p Hp. apply bundle_get_in in Hp.
        rewrite Hag by tauto. apply Hframe. apply Htpl. exact Hp. }
    destruct (render_template py_repr fs (bundle_get tpl key) args)
      as [[c|]|]; [| |inversion H; subst; reflexivity].
    + destruct (write_text out_path c fs) as [o1 fs1] eqn:Hw.
      pose proof Hw as Hw0.
      apply write_text_inv in Hw
        as [(-> & -> & _)|(-> & -> & Hdir & Hnot)].
      * inversion H; subst.
        rewrite (write_text_raise_ext out_path c fs' fs''); [reflexivity| | |exact Hw0];
          apply Hag; simpl; tauto.
      * pose proof (render_loop_frame _ _ _ _ _ _ _ H) as Hframe1.
        rewrite write_text_same.
        -- apply (IH Hwf' _ _ _ _ H). intros q Hq. apply Hag. simpl. tauto.
        -- rewrite Hag by (simpl; tauto).
           rewrite Hframe1 by exact Hp1.
           rewrite lookup_insert_ne by exact Hp2. exact Hdir.
        -- rewrite Hag by (simpl; tauto).
           rewrite Hframe1 by exact Hout.
           apply lookup_insert_eq.
    + apply (IH Hwf' _ _ _ _ H). intros q Hq. apply Hag. simpl. tauto.
Qed.

(** The bundle of a run is one of the five of the program. *)
Lemma main_bundle_cases (info : DetectionResult) :
  In (main_bundle TEMPLATES info)
     (generic_bundle TEMPLATES :: map snd (template_table TEMPLATES)).
Proof.
  unfold main_bundle, choose_templates.
  destruct (language info) as [l|]; [|simpl; tauto].
  unfold template_table. cbn [table_get].
  destruct (String.eqb l "java"); [simpl; tauto|].
  destruct (String.eqb l "go"); [simpl; tauto|].
  destruct (String.eqb l "node"); [simpl; tauto|].
  destruct (String.eqb l "python"); simpl; tauto.
Qed.

(** No template carries the name of an output. *)
Lemma template_path_name (info : DetectionResult) (p : Path) :
  In p (template_paths (main_bundle TEMPLATES info)) ->
  exists q n, p = q // n /\ is_output_name n = false.
Proof.
  intros Hp. pose proof (main_bundle_cases info) as Hb.
  cbn [map snd template_table In] in Hb.
  repeat (destruct Hb as [Hb|Hb]; [rewrite <- Hb in Hp; clear Hb|]);
    [..|contradiction];
    cbn in Hp;
    repeat (destruct Hp as [Hp|Hp]; [subst p; eexists _, _; split; reflexivity|]);
    contradiction.
Qed.

Lemma output_path_name (p : Path) :
  In p (out_files ROOT) \/ p = OUT ROOT ->
  exists q n, p = q // n /\ is_output_name n = true.
Proof.
  unfold out_files, outputs, OUT. cbn. intros [H|H].
  - repeat (destruct H as [H|H];
            [subst p; eexists _, _; split; reflexivity|]).
    contradiction.
  - subst p. eexists _, _; split; reflexivity.
Qed.

Lemma template_not_output (info : DetectionResult) (p : Path) :
  In p (template_paths (main_bundle TEMPLATES info)) ->
  ~ (In p (out_files ROOT) \/ p = OUT ROOT).
Proof.
  intros Ht Ho. apply template_path_name in Ht as (q & n & -> & Hn).
  apply output_path_name in Ho as (q' & n' & Heq & Hn').
  apply pjoin_inj in Heq as [_ ->]. congruence.
Qed.

Lemma outputs_wf (info : DetectionResult) :
  loop_wf (main_bundle TEMPLATES info) (outputs ROOT).
Proof.
  unfold loop_wf. repeat split.
  - unfold outputs. cbn [map snd].
    repeat (apply NoDup_cons_2;
            [rewrite list_elem_of_In; cbn;
             intros H; repeat (destruct H as [H|H];
               [apply pjoin_inj in H as [_ H]; discriminate|]); exact H|]).
    apply NoDup_nil_2.
  - unfold outputs. cbn [map snd]. intros out Hin Hp.
    assert (Hout : parent out = OUT ROOT).
    { cbn in Hin. repeat (destruct Hin as [<-|Hin]; [apply parent_pjoin|]).
      contradiction. }
    rewrite Hout in Hp. cbn in Hp.
    repeat (destruct Hp as [Hp|Hp]; [exact (pjoin_ne_self _ _ Hp)|]).
    exact Hp.
  - intros p Hp Hin. apply (template_not_output info p Hp).
    left. unfold out_files. apply in_or_app. left. exact Hin.
Qed.

Lemma root_child_not_out_file (n : string) :
  ~ In (ROOT // n) (out_files ROOT).
Proof.
  unfold out_files, outputs. cbn. unfold OUT. intros H.
  repeat (destruct H as [H|H];
          [apply pjoin_inj in H as [H _]; exact (pjoin_ne_self _ _ H)|]).
  exact H.
Qed.

Lemma OUT_not_out_file : ~ In (OUT ROOT) (out_files ROOT).
Proof. apply root_child_not_out_file. Qed.

Lemma report_not_output : ~ In (OUT ROOT // "report.txt") (map snd (outputs ROOT)).
Proof.
  unfold outputs. cbn. intros H.
  repeat (destruct H as [H|H]; [apply pjoin_inj in H as [_ H]; discriminate|]).
  exact H.
Qed.

(** [main], unfolded. *)
Lemma main_unfold (fs : FS) :
  main ROOT TEMPLATES environ re_search json_loads py_repr fs =
  match detect_language re_search json_loads ROOT fs with
  | Raise => (Raise, fs)
  | Ret info =>
      match render_loop py_repr (outputs ROOT) (main_bundle TEMPLATES info)
              (main_vars TEMPLATES environ py_repr info)
              (main_report_head TEMPLATES py_repr info) fs with
      | (Ret report_lines, fs1) =>
          write_text (OUT ROOT // "report.txt")
                     (str_join newline report_lines) fs1
      | (Raise, fs1) => (Raise, fs1)
      end
  end.
Proof.
  unfold main, bind.
  destruct (detect_language re_search json_loads ROOT fs); [|reflexivity].
  destruct (render_loop _ _ _ _ _ fs) as [[l|] fs1]; reflexivity.
Qed.

(** [main] writes to its four files only. *)
Lemma main_frame (fs fs' : FS) (o : outcome unit) :
  main ROOT TEMPLATES environ re_search json_loads py_repr fs = (o, fs') ->
  forall p, ~ In p (out_files ROOT) -> fs' !! p = fs !! p.
Proof.
  rewrite main_unfold. intros H p Hp.
  assert (Hp1 : ~ In p (map snd (outputs ROOT))).
  { intros Hin. apply Hp. unfold out_files. apply in_or_app. tauto. }
  assert (Hp2 : OUT ROOT // "report.txt" <> p).
  { intros <-. apply Hp. unfold out_files. apply in_or_app. simpl. tauto. }
  destruct (detect_language re_search json_loads ROOT fs) as [info|];
    [|inversion H; subst; reflexivity].
  destruct (render_loop _ _ _ _ _ fs) as [[l|] fs1] eqn:Hl.
  - pose proof (render_loop_frame _ _ _ _ _ _ _ Hl p Hp1) as Hf.
    apply write_text_inv in H as [(_ & -> & _)|(_ & -> & _)];
      [exact Hf|].
    rewrite lookup_insert_ne by exact Hp2. exact Hf.
  - inversion H; subst. exact (render_loop_frame _ _ _ _ _ _ _ Hl p Hp1).
Qed.

(** Detection does not see what [main] wrote. *)
Lemma detect_language_stable (fs fs' : FS) :
  (forall p, ~ In p (out_files ROOT) -> fs' !! p = fs !! p) ->
  detect_language re_search json_loads ROOT fs'
  = detect_language re_search json_loads ROOT fs.
Proof.
  intros Hf. apply detect_language_ext.
  - intros m _. apply Hf. apply root_child_not_out_file.
  - intros n. unfold is_file. rewrite Hf by apply root_child_not_out_file.
    reflexivity.
Qed.

(** Run on its own result, [main] does the same and changes nothing. *)
Lemma main_again (fs fs' : FS) (o : outcome unit) :
  main ROOT TEMPLATES environ re_search json_loads py_repr fs = (o, fs') ->
  main ROOT TEMPLATES environ re_search json_loads py_repr fs' = (o, fs').
Proof.
  intros H. pose proof (main_frame _ _ _ H) as Hframe.
  rewrite main_unfold in H |- *.
  rewrite (detect_language_stable fs fs' Hframe).
  destruct (detect_language re_search json_loads ROOT fs) as [info|];
    [|inversion H; subst; reflexivity].
  destruct (render_loop _ _ _ _ _ fs) as [[l|] fs1] eqn:Hl.
  - assert (Hag : forall q,
              In q (template_paths (main_bundle TEMPLATES info))
              \/ In q (map snd (outputs ROOT))
              \/ In q (map parent (map snd (outputs ROOT))) ->
              q <> OUT ROOT // "report.txt").
    { intros q [Hq|[Hq|Hq]] ->.
      - apply (template_not_output info _ Hq). left.
        unfold out_files. apply in_or_app. simpl. tauto.
      - exact (report_not_output Hq).
      - unfold outputs in Hq. cbn in Hq. rewrite !parent_pjoin in Hq.
        repeat (destruct Hq as [Hq|Hq];
                [symmetry in Hq; exact (pjoin_ne_self _ _ Hq)|]).
        exact Hq. }
    pose proof H as H0.
    apply write_text_inv in H as [(-> & -> & _)|(-> & -> & Hdir & _)].
    + rewrite (render_loop_again _ _ _ (outputs_wf info) _ _ _ _ Hl fs1)
        by reflexivity.
      exact H0.
    + rewrite (render_loop_again _ _ _ (outputs_wf info) _ _ _ _ Hl
                 (<[OUT ROOT // "report.txt" := File (Some (str_join newline l))]> fs1)).
      * apply write_text_same.
        -- rewrite lookup_insert_ne; [exact Hdir|].
           rewrite parent_pjoin. apply pjoin_ne_self.
        -- apply lookup_insert_eq.
      * intros q Hq. apply lookup_insert_ne. intros Heq.
        exact (Hag q Hq (eq_sym Heq)).
  - inversion H; subst.
    rewrite (render_loop_again _ _ _ (outputs_wf info) _ _ _ _ Hl fs')
      by reflexivity.
    reflexivity.
Qed.

Lemma render_template_present (fs : FS) (path : option Path) (vars : dict) :
  (forall p, path = Some p ->
     fs !! p = None \/ exists s, fs !! p = Some (File (Some s))) ->
  render_template py_repr fs path vars
  = Ret (option_map (fun s => substitute py_repr s vars) (template_text fs path)).
Proof.
  intros H. destruct path as [p|]; [|reflexivity].
  unfold render_template, template_text, path_exists, read_text.
  destruct (H p eq_refl) as [->|[s ->]]; reflexivity.
Qed.

(** With readable templates and writable outputs the loop completes: it
    reports every missing template and writes every other output. *)
Lemma render_loop_ok (items : list (string * Path)) (tpl : bundle)
    (vars args : dict) :
  render_args vars = Ret args ->
  loop_wf tpl items ->
  forall (lines : list string) (fs : FS),
  (forall out, In out (map snd items) ->
     fs !! parent out = Some Dir /\ fs !! out <> Some Dir) ->
  (forall p, In p (template_paths tpl) ->
     fs !! p = None \/ exists s, fs !! p = Some (File (Some s))) ->
  exists (added : list string) (fs' : FS),
    render_loop py_repr items tpl vars lines fs = (Ret (lines ++ added), fs')
    /\ (forall key out, In (key, out) items ->
          match template_text fs (bundle_get tpl key) with
          | Some s =>
              fs' !! out = Some (File (Some (substitute py_repr s args)))
              /\ In (wrote_line out) added
          | None =>
              fs' !! out = fs !! out
              /\ In (not_found_line key (bundle_get tpl key)) added
          end).
Proof.
  intros Hargs. induction items as [|[key out_path] rest IH];
    intros Hwf lines fs Hout Htpl.
  - exists [], fs. cbn. unfold ret. rewrite app_nil_r. split; [reflexivity|].
    intros key out [].
  - pose proof (loop_wf_tail _ _ _ Hwf) as Hwf'.
    destruct Hwf as (Hnd & Hpar & Hdis). cbn [map snd] in *.
    apply NoDup_cons in Hnd as [Hfresh Hnd]. rewrite list_elem_of_In in Hfresh.
    assert (Hp1 : ~ In (parent out_path) (map snd rest)).
    { intros Hin. apply (Hpar out_path); simpl; tauto. }
    rewrite render_loop_cons, Hargs.
    rewrite render_template_present
      by (intros p Hp; apply Htpl; exact (bundle_get_in _ _ _ Hp)).
    destruct (template_text fs (bundle_get tpl key)) as [s|] eqn:Htext; cbn [option_map].
    + destruct (Hout out_path (or_introl eq_refl)) as [Hdir Hnot].
      unfold write_text at 1. rewrite Hdir.
      set (fs1 := <[out_path := File (Some (substitute py_repr s args))]> fs).
      assert (Hw : match fs !! out_path with
                   | Some Dir => (@Raise unit, fs)
                   | _ => (Ret tt, fs1)
                   end = (Ret tt, fs1)).
      { destruct (fs !! out_path) as [[|u]|]; [congruence|reflexivity..]. }
      rewrite Hw. clear Hw.
      assert (Hne : forall q, In q (map snd rest) \/ In q (template_paths tpl)
                              \/ In q (map parent (map snd rest)) ->
                              fs1 !! q = fs !! q).
      { intros q Hq. apply lookup_insert_ne. intros <-.
        destruct Hq as [Hq|[Hq|Hq]].
        - exact (Hfresh Hq).
        - apply (Hdis out_path Hq). simpl. tauto.
        - apply in_map_iff in Hq as (o' & Ho' & Hin).
          apply (Hpar o'); simpl; [tauto|]. left. symmetry. exact Ho'. }
      destruct (IH Hwf' (lines ++ [wrote_line out_path]) fs1)
        as (added & fs' & Hrun & Hres).
      { intros out Hin. rewrite !Hne.
        - apply Hout. right. exact Hin.
        - left. exact Hin.
        - right. right. apply in_map. exact Hin. }
      { intros p Hp. rewrite Hne by tauto. apply Htpl. exact Hp. }
      exists (wrote_line out_path :: added), fs'. split.
      { rewrite Hrun. rewrite <- app_assoc. reflexivity. }
      intros key' out' [Heq|Hin].
      * injection Heq as <- <-. rewrite Htext. split; [|simpl; tauto].
        rewrite (render_loop_frame _ _ _ _ _ _ _ Hrun _ Hfresh).
        apply lookup_insert_eq.
      * specialize (Hres key' out' Hin).
        assert (Ht : template_text fs1 (bundle_get tpl key')
                     = template_text fs (bundle_get tpl key')).
        { unfold template_text. destruct (bundle_get tpl key') as [p|] eqn:Hb;
            [|reflexivity].
          rewrite Hne; [reflexivity|]. right. left.
          exact (bundle_get_in _ _ _ Hb). }
        rewrite Ht in Hres.
        destruct (template_text fs (bundle_get tpl key')) as [s'|].
        -- destruct Hres as [Hres1 Hres2]. split; [exact Hres1|simpl; tauto].
        -- destruct Hres as [Hres1 Hres2]. split; [|simpl; tauto].
           rewrite Hres1. apply Hne. left.
           apply in_map_iff. exists (key', out'). split; [reflexivity|exact Hin].
    + destruct (IH Hwf' (lines ++ [not_found_line key (bundle_get tpl key)]) fs)
        as (added & fs' & Hrun & Hres).
      { intros out Hin. apply Hout. right. exact Hin. }
      { exact Htpl. }
      exists (not_found_line key (bundle_get tpl key) :: added), fs'. split.
      { rewrite Hrun. rewrite <- app_assoc. reflexivity. }
      intros key' out' [Heq|Hin].
      * injection Heq as <- <-. rewrite Htext. split; [|simpl; tauto].
        exact (render_loop_frame _ _ _ _ _ _ _ Hrun _ Hfresh).
      * specialize (Hres key' out' Hin).
        destruct (template_text fs (bundle_get tpl key')) as [s'|];
          destruct Hres as [Hres1 Hres2]; (split; [exact Hres1|simpl; tauto]).
Qed.

(** The renderer receives the six entries, whatever was detected. *)
Lemma render_args_main (fs : FS) (info : DetectionResult) :
  detect_language re_search json_loads ROOT fs = Ret info ->
  render_args (main_vars TEMPLATES environ py_repr info)
  = Ret (main_render_context TEMPLATES environ py_repr info).
Proof.
  rewrite detect_language_eq. intros [= <-].
  unfold main_vars, main_render_context, main_project_name. cbn [details].
  unfold details_of.
  destruct (String.eqb (marker_tag fs ROOT) "java").
  { destruct (path_exists fs (ROOT // "pom.xml")); reflexivity. }
  destruct (String.eqb (marker_tag fs ROOT) "go"); [reflexivity|].
  destruct (String.eqb (marker_tag fs ROOT) "node").
  { destruct (package_of json_loads fs ROOT); reflexivity. }
  destruct (String.eqb (marker_tag fs ROOT) "python"); [|reflexivity].
  destruct (path_exists fs (ROOT // "pyproject.toml")); reflexivity.
Qed.

(** The script, unfolded. *)
Lemma script_unfold (fs : FS) :
  script ROOT TEMPLATES environ re_search json_loads py_repr fs =
  match mkdir_exist_ok (OUT ROOT) fs with
  | (Ret _, fs1) => main ROOT TEMPLATES environ re_search json_loads py_repr fs1
  | (Raise, fs1) => (Raise, fs1)
  end.
Proof.
  unfold script, bind. destruct (mkdir_exist_ok (OUT ROOT) fs) as [[u|] fs1];
    reflexivity.
Qed.

(** After the start-up of the script the detector sees what it would have
    seen before. *)
Lemma detect_language_mkdir (fs fs1 : FS) :
  mkdir_exist_ok (OUT ROOT) fs = (Ret tt, fs1) ->
  detect_language re_search json_loads ROOT fs1
  = detect_language re_search json_loads ROOT fs.
Proof.
  intros Hmk.
  apply mkdir_exist_ok_inv in Hmk
    as [(Habs & _)|(_ & Hdir & Hother & Hwas)]; [discriminate|].
  destruct Hwas as [Hnone| ->]; [|reflexivity].
  apply detect_language_ext.
  - intros m Hm. apply Hother. unfold OUT. intros Heq.
    apply pjoin_inj in Heq as [_ ->]. cbn in Hm.
    repeat (destruct Hm as [Hm|Hm]; [discriminate|]). exact Hm.
  - intros n. unfold is_file.
    destruct (decide (ROOT // n = OUT ROOT)) as [->|Hne].
    + rewrite Hdir, Hnone. reflexivity.
    + rewrite Hother by exact Hne. reflexivity.
Qed.

(** ** Detection *)

Lemma marker_tag_cases (fs : FS) (root : Path) :
  In (marker_tag fs root) tags.
Proof.
  unfold marker_tag, markers. cbn [find].
  repeat (match goal with
          | |- context [if path_exists fs ?p then _ else _] =>
              destruct (path_exists fs p)
          end; [cbn; tauto|]).
  cbn. tauto.
Qed.

(** C1. A root that holds both [pom.xml] and [package.json] is detected as
    ["java"]: the build-tool manifest comes first in the priority order. *)
Theorem detect_pom_beats_package_json (root : Path) (fs : FS) :
  path_exists fs (root // "pom.xml") = true ->
  path_exists fs (root // "package.json") = true ->
  exists info,
    detect_language re_search json_loads root fs = Ret info
    /\ language info = Some "java".
Proof.
  intros Hpom _. eexists. split; [apply detect_language_eq|].
  cbn [language]. unfold marker_tag, markers. cbn [find].
  rewrite Hpom. reflexivity.
Qed.

(** C7. A root whose only marker file is [go.mod] is detected as ["go"],
    and the bundle chosen for that tag builds with [go build -v ./...]. *)
Theorem detect_go_only (root : Path) (fs : FS) :
  path_exists fs (root // "go.mod") = true ->
  (forall m, In m markers -> m <> "go.mod" ->
     path_exists fs (root // m) = false) ->
  exists info tpl,
    detect_language re_search json_loads root fs = Ret info
    /\ language info = Some "go"
    /\ choose_templates TEMPLATES (language info) = Some tpl
    /\ build_cmd tpl = "go build -v ./...".
Proof.
  intros Hgo Hothers.
  assert (Htag : marker_tag fs root = "go").
  { unfold marker_tag, markers. cbn [find].
    rewrite !Hothers by (first [simpl; tauto | discriminate]).
    rewrite Hgo. reflexivity. }
  eexists. eexists. split; [apply detect_language_eq|].
  cbn [language]. rewrite Htag. repeat split; reflexivity.
Qed.

(** C6. A root without any marker file is detected as ["unknown"]; the
    table has no entry for that tag and the run falls back to the generic
    bundle, whose build and test commands only echo that nothing is
    configured. *)
Theorem detect_none_generic (fs : FS) :
  (forall m, In m markers -> path_exists fs (ROOT // m) = false) ->
  exists info,
    detect_language re_search json_loads ROOT fs = Ret info
    /\ language info = Some "unknown"
    /\ choose_templates TEMPLATES (language info) = None
    /\ main_bundle TEMPLATES info = generic_bundle TEMPLATES
    /\ build_cmd (main_bundle TEMPLATES info)
       = "echo " +:+ dquote +:+ "No build configured" +:+ dquote
    /\ test_cmd (main_bundle TEMPLATES info)
       = "echo " +:+ dquote +:+ "No tests configured" +:+ dquote
    /\ dict_get (main_render_context TEMPLATES environ py_repr info) "BUILD_CMD"
       = Some (PStr ("echo " +:+ dquote +:+ "No build configured" +:+ dquote))
    /\ dict_get (main_render_context TEMPLATES environ py_repr info) "TEST_CMD"
       = Some (PStr ("echo " +:+ dquote +:+ "No tests configured" +:+ dquote)).
Proof.
  intros Hnone.
  assert (Htag : marker_tag fs ROOT = "unknown").
  { unfold marker_tag, markers. cbn [find].
    rewrite !Hnone by (simpl; tauto). reflexivity. }
  eexists. split; [apply detect_language_eq|].
  unfold main_render_context, main_bundle. cbn [language]. rewrite Htag.
  repeat split; reflexivity.
Qed.

Lemma detect_language_returns (root : Path) (fs : FS) :
  exists info,
    detect_language re_search json_loads root fs = Ret info
    /\ language info = Some (marker_tag fs root)
    /\ details info = details_of re_search json_loads fs root.
Proof.
  eexists. split; [apply detect_language_eq|]. split; reflexivity.
Qed.

Lemma pom_unusable_none (fs : FS) (root : Path) :
  pom_unusable re_search fs root -> java_version_of re_search fs root = None.
Proof.
  unfold pom_unusable, java_version_of.
  intros [->|(c & -> & -> & ->)]; reflexivity.
Qed.

Lemma go_mod_unusable_none (fs : FS) (root : Path) :
  go_mod_unusable fs root -> go_mod_first_of fs root = None.
Proof.
  unfold go_mod_unusable, go_mod_first_of. intros [->| ->]; reflexivity.
Qed.

Lemma package_unusable_none (fs : FS) (root : Path) :
  package_unusable json_loads fs root -> package_of json_loads fs root = None.
Proof.
  unfold package_unusable, package_of.
  intros [->|(text & -> & [->|(v & -> & Hv)])]; try reflexivity.
  destruct v; try reflexivity. exfalso. exact (Hv d eq_refl).
Qed.

Lemma pyproject_unusable_none (fs : FS) (root : Path) :
  pyproject_unusable re_search fs root ->
  python_requires_of re_search fs root = None.
Proof.
  unfold pyproject_unusable, python_requires_of.
  intros [->|(c & -> & ->)]; reflexivity.
Qed.

(** C8. Whatever the auxiliary read-and-parse step does, [detect_language]
    returns a result carrying the tag of the markers; when the manifest
    cannot be read, cannot be parsed or holds no match, the detail is
    recorded as absent ([None], or the empty [scripts]), and nothing is
    raised. *)
Theorem detect_language_recovers (root : Path) (fs : FS) :
  exists info,
    detect_language re_search json_loads root fs = Ret info
    /\ language info = Some (marker_tag fs root)
    /\ (marker_tag fs root = "java" ->
        path_exists fs (root // "pom.xml") = true ->
        pom_unusable re_search fs root ->
        details info = [("java_version", PNone)])
    /\ (marker_tag fs root = "go" ->
        go_mod_unusable fs root ->
        details info = [("go_mod_first", PNone)])
    /\ (marker_tag fs root = "node" ->
        package_unusable json_loads fs root ->
        details info
        = [("name", PNone); ("scripts", PDict []); ("engines", PNone)])
    /\ (marker_tag fs root = "python" ->
        path_exists fs (root // "pyproject.toml") = true ->
        pyproject_unusable re_search fs root ->
        details info = [("python_requires", PNone)]).
Proof.
  eexists. split; [apply detect_language_eq|]. cbn [language details].
  split; [reflexivity|]. unfold details_of. repeat split.
  - intros -> -> H. rewrite (pom_unusable_none _ _ H). reflexivity.
  - intros -> H. rewrite (go_mod_unusable_none _ _ H). reflexivity.
  - intros -> H. rewrite (package_unusable_none _ _ H). reflexivity.
  - intros -> -> H. rewrite (pyproject_unusable_none _ _ H). reflexivity.
Qed.

Lemma main_vars_image (fs : FS) (info : DetectionResult) :
  detect_language re_search json_loads ROOT fs = Ret info ->
  dict_get (main_vars TEMPLATES environ py_repr info) "IMAGE_NAME"
  = dict_get (main_render_context TEMPLATES environ py_repr info) "IMAGE_NAME"
  /\ dict_get (main_vars TEMPLATES environ py_repr info) "PROJECT_NAME"
     = Some (main_project_name info).
Proof.
  rewrite detect_language_eq. intros [= <-].
  unfold main_vars, main_render_context, main_project_name. cbn [details].
  unfold details_of.
  destruct (String.eqb (marker_tag fs ROOT) "java").
  { destruct (path_exists fs (ROOT // "pom.xml")); split; reflexivity. }
  destruct (String.eqb (marker_tag fs ROOT) "go"); [split; reflexivity|].
  destruct (String.eqb (marker_tag fs ROOT) "node").
  { destruct (package_of json_loads fs ROOT); split; reflexivity. }
  destruct (String.eqb (marker_tag fs ROOT) "python"); [|split; reflexivity].
  destruct (path_exists fs (ROOT // "pyproject.toml")); split; reflexivity.
Qed.

(** C10. Without a project-name detail (any ecosystem other than node, and
    node when [package.json] cannot be parsed or has no name) the project
    name of the run is ["local-project"]; with [CI_REGISTRY_IMAGE] unset or
    empty the [IMAGE_NAME] of the run is the project name followed by
    [":latest"], hence ["local-project:latest"] when both defaults apply. *)
Theorem default_project_and_image (fs : FS) :
  exists info,
    detect_language re_search json_loads ROOT fs = Ret info
    /\ (language info <> Some "node"
        \/ package_unusable json_loads fs ROOT
        \/ package_nameless json_loads fs ROOT ->
        dict_get (details info) "name" = None
        \/ dict_get (details info) "name" = Some PNone)
    /\ (dict_get (details info) "name" = None
        \/ dict_get (details info) "name" = Some PNone ->
        main_project_name info = PStr "local-project"
        /\ dict_get (main_vars TEMPLATES environ py_repr info) "PROJECT_NAME"
           = Some (PStr "local-project"))
    /\ (environ !! "CI_REGISTRY_IMAGE" = None
        \/ environ !! "CI_REGISTRY_IMAGE" = Some EmptyString ->
        dict_get (main_vars TEMPLATES environ py_repr info) "IMAGE_NAME"
        = Some (PStr (py_str py_repr (main_project_name info) +:+ ":latest"))
        /\ (main_project_name info = PStr "local-project" ->
            dict_get (main_vars TEMPLATES environ py_repr info) "IMAGE_NAME"
            = Some (PStr "local-project:latest"))).
Proof.
  destruct (detect_language_returns ROOT fs) as (info & Hdet & Htag & Hdetails).
  exists info. split; [exact Hdet|].
  destruct (main_vars_image fs info Hdet) as [Himg Hname].
  split; [|split].
  - intros Hno. rewrite Hdetails. unfold details_of.
    rewrite Htag in Hno.
    destruct (String.eqb (marker_tag fs ROOT) "java").
    { destruct (path_exists fs (ROOT // "pom.xml")); left; reflexivity. }
    destruct (String.eqb (marker_tag fs ROOT) "go"); [left; reflexivity|].
    destruct (String.eqb (marker_tag fs ROOT) "node") eqn:Enode.
    2:{ destruct (String.eqb (marker_tag fs ROOT) "python"); [|left; reflexivity].
        destruct (path_exists fs (ROOT // "pyproject.toml")); left; reflexivity. }
    apply String.eqb_eq in Enode.
    destruct Hno as [Hno|[Hno|Hno]].
    + exfalso. apply Hno. rewrite Enode. reflexivity.
    + rewrite (package_unusable_none _ _ Hno). right. reflexivity.
    + destruct Hno as (text & d & Hr & Hj & Hn).
      unfold package_of. rewrite Hr, Hj. cbn. rewrite Hn. right. reflexivity.
  - intros Hno.
    assert (Hpn : main_project_name info = PStr "local-project").
    { unfold main_project_name. destruct Hno as [-> | ->]; reflexivity. }
    split; [exact Hpn|]. rewrite Hname, Hpn. reflexivity.
  - intros Henv.
    assert (Hi : dict_get (main_vars TEMPLATES environ py_repr info) "IMAGE_NAME"
                 = Some (PStr (py_str py_repr (main_project_name info) +:+ ":latest"))).
    { rewrite Himg. unfold main_render_context. cbn.
      destruct Henv as [-> | ->]; reflexivity. }
    split; [exact Hi|]. intros Hpn. rewrite Hi, Hpn. reflexivity.
Qed.

(** ** The run *)

Lemma mkdir_exist_ok_ok (p : Path) (fs : FS) :
  fs !! p = None \/ fs !! p = Some Dir ->
  exists fs1, mkdir_exist_ok p fs = (Ret tt, fs1)
    /\ fs1 !! p = Some Dir
    /\ (forall q, q <> p -> fs1 !! q = fs !! q).
Proof.
  unfold mkdir_exist_ok. intros [H|H]; rewrite H.
  - eexists. split; [reflexivity|]. split; [apply lookup_insert_eq|].
    intros q Hq. apply lookup_insert_ne. congruence.
  - exists fs. repeat split; auto.
Qed.

Lemma output_in_out_files (key : string) (out_path : Path) :
  In (key, out_path) (outputs ROOT) -> In out_path (out_files ROOT).
Proof.
  intros H. unfold out_files. apply in_or_app. left.
  apply in_map_iff. exists (key, out_path). split; [reflexivity|exact H].
Qed.

Lemma report_in_out_files : In (OUT ROOT // "report.txt") (out_files ROOT).
Proof. unfold out_files. apply in_or_app. right. simpl. tauto. Qed.

Lemma out_file_parent (p : Path) :
  In p (out_files ROOT) -> parent p = OUT ROOT /\ p <> OUT ROOT.
Proof.
  unfold out_files, outputs. cbn. intros H.
  repeat (destruct H as [<-|H];
          [split; [apply parent_pjoin|apply pjoin_ne_self]|]).
  contradiction.
Qed.

(** A missing template, once the templates directory is known. *)
Lemma script_missing_template (fs : FS) (info : DetectionResult)
    (key : string) (out_path tpl_path : Path) :
  detect_language re_search json_loads ROOT fs = Ret info ->
  In (key, out_path) (outputs ROOT) ->
  bundle_get (main_bundle TEMPLATES info) key = Some tpl_path ->
  fs !! tpl_path = None ->
  io_ok ROOT TEMPLATES fs info ->
  exists (fs' : FS) (report_lines : list string),
    script ROOT TEMPLATES environ re_search json_loads py_repr fs = (Ret tt, fs')
    /\ fs' !! out_path = fs !! out_path
    /\ fs' !! (OUT ROOT // "report.txt")
       = Some (File (Some (str_join newline report_lines)))
    /\ In (not_found_line key (Some tpl_path)) report_lines
    /\ (forall key' out' p' s,
          In (key', out') (outputs ROOT) ->
          bundle_get (main_bundle TEMPLATES info) key' = Some p' ->
          fs !! p' = Some (File (Some s)) ->
          fs' !! out'
          = Some (File (Some (substitute py_repr s
                     (main_render_context TEMPLATES environ py_repr info))))).
Proof.
  intros Hdet Hitem Hget Hmissing (Hout & Htpl & Hnodir).
  destruct (mkdir_exist_ok_ok (OUT ROOT) fs Hout) as (fs1 & Hmk & Hdir & Hsame).
  assert (Htsame : forall p,
            In p (template_paths (main_bundle TEMPLATES info)) ->
            fs1 !! p = fs !! p).
  { intros p Hp. apply Hsame. intros ->.
    apply (template_not_output info _ Hp). right. reflexivity. }
  assert (Hosame : forall p, In p (out_files ROOT) -> fs1 !! p = fs !! p).
  { intros p Hp. apply Hsame. apply out_file_parent. exact Hp. }
  rewrite script_unfold, Hmk, main_unfold.
  rewrite (detect_language_mkdir fs fs1 Hmk), Hdet.
  destruct (render_loop_ok (outputs ROOT) (main_bundle TEMPLATES info)
              (main_vars TEMPLATES environ py_repr info)
              (main_render_context TEMPLATES environ py_repr info)
              (render_args_main fs info Hdet) (outputs_wf info)
              (main_report_head TEMPLATES py_repr info) fs1)
    as (added & fs2 & Hrun & Hres).
  { intros out Hin. apply in_map_iff in Hin as ([k o] & <- & Hin). cbn [snd].
    pose proof (output_in_out_files _ _ Hin) as Hof.
    destruct (out_file_parent _ Hof) as [-> _].
    split; [exact Hdir|]. rewrite Hosame by exact Hof. apply Hnodir. exact Hof. }
  { intros p Hp. rewrite Htsame by exact Hp. apply Htpl. exact Hp. }
  rewrite Hrun.
  pose proof (render_loop_frame _ _ _ _ _ _ _ Hrun) as Hframe.
  set (lines := main_report_head TEMPLATES py_repr info ++ added).
  assert (Hw : write_text (OUT ROOT // "report.txt") (str_join newline lines) fs2
               = (Ret tt, <[OUT ROOT // "report.txt" := File (Some (str_join newline lines))]> fs2)).
  { unfold write_text. rewrite parent_pjoin.
    rewrite (Hframe (OUT ROOT)), Hdir.
    2:{ intros Hin. apply OUT_not_out_file. unfold out_files.
        apply in_or_app. left. exact Hin. }
    rewrite (Hframe _ report_not_output).
    rewrite (Hosame _ report_in_out_files).
    pose proof (Hnodir _ report_in_out_files) as Hnd.
    destruct (fs !! (OUT ROOT // "report.txt")) as [[|u]|];
      [congruence|reflexivity..]. }
  rewrite Hw.
  assert (Hne : forall k o, In (k, o) (outputs ROOT) ->
                 OUT ROOT // "report.txt" <> o).
  { intros k o Hin Heq. apply report_not_output. rewrite Heq.
    apply in_map_iff. exists (k, o). split; [reflexivity|exact Hin]. }
  eexists. exists lines. split; [reflexivity|]. repeat split.
  - rewrite lookup_insert_ne by exact (Hne _ _ Hitem).
    specialize (Hres key out_path Hitem). rewrite Hget in Hres.
    unfold template_text in Hres.
    rewrite (Htsame _ (bundle_get_in _ _ _ Hget)), Hmissing in Hres.
    destruct Hres as [-> _]. apply Hosame.
    exact (output_in_out_files _ _ Hitem).
  - apply lookup_insert_eq.
  - unfold lines. apply in_or_app. right.
    specialize (Hres key out_path Hitem). rewrite Hget in Hres.
    unfold template_text in Hres.
    rewrite (Htsame _ (bundle_get_in _ _ _ Hget)), Hmissing in Hres.
    tauto.
  - intros key' out' p' s Hin' Hget' Hs.
    rewrite lookup_insert_ne by exact (Hne _ _ Hin').
    specialize (Hres key' out' Hin'). rewrite Hget' in Hres.
    unfold template_text in Hres.
    rewrite (Htsame _ (bundle_get_in _ _ _ Hget')), Hs in Hres.
    tauto.
Qed.

(** The whole script is the run with the templates directory that the
    start-up search finds. *)
Lemma program_unfold (THIS : Path) (fs : FS) :
  program ROOT THIS environ re_search json_loads py_repr fs =
  match mkdir_exist_ok (OUT ROOT) fs with
  | (Ret _, fs1) =>
      match locate_templates THIS fs1 with
      | (Ret T, _) => main ROOT T environ re_search json_loads py_repr fs1
      | (Raise, _) => (Raise, fs1)
      end
  | (Raise, fs1) => (Raise, fs1)
  end.
Proof.
  unfold program, bind.
  destruct (mkdir_exist_ok (OUT ROOT) fs) as [[u|] fs1]; [|reflexivity].
  unfold locate_templates.
  destruct (py_parents THIS 1) as [p1|]; [|reflexivity].
  destruct (path_exists fs1 (p1 // "templates")); [reflexivity|].
  destruct (py_parents THIS 2) as [p2|]; [|reflexivity].
  destruct (path_exists fs1 (p2 // "templates")); reflexivity.
Qed.

Lemma locate_templates_ext (THIS : Path) (fs fs' : FS) :
  (forall q, fs' !! (q // "templates") = fs !! (q // "templates")) ->
  fst (locate_templates THIS fs') = fst (locate_templates THIS fs).
Proof.
  intros H. unfold locate_templates, path_exists.
  destruct (py_parents THIS 1) as [p1|]; [|reflexivity].
  rewrite (H p1). destruct (fs !! (p1 // "templates")); [reflexivity|].
  destruct (py_parents THIS 2) as [p2|]; [|reflexivity].
  rewrite (H p2). destruct (fs !! (p2 // "templates")); reflexivity.
Qed.

Lemma templates_dir_not_out_file (q : Path) :
  ~ In (q // "templates") (out_files ROOT).
Proof.
  intros Hin.
  destruct (output_path_name (q // "templates") (or_introl Hin))
    as (q' & n & Heq & Hn).
  apply pjoin_inj in Heq as [_ <-]. discriminate.
Qed.

End ProgramFacts.

Section WholeScript.

Variable ROOT : Path.
Variable THIS : Path.
Variable environ : gmap string string.
Variable re_search : string -> string -> option string.
Variable json_loads : string -> option pyval.
Variable py_repr : pyval -> string.

Lemma program_script (TEMPLATES : Path) (fs : FS) :
  (forall fs1, fst (mkdir_exist_ok (OUT ROOT) fs) = Ret tt ->
     fs1 = snd (mkdir_exist_ok (OUT ROOT) fs) ->
     fst (locate_templates THIS fs1) = Ret TEMPLATES) ->
  program ROOT THIS environ re_search json_loads py_repr fs
  = script ROOT TEMPLATES environ re_search json_loads py_repr fs.
Proof.
  intros H. rewrite program_unfold, script_unfold.
  destruct (mkdir_exist_ok (OUT ROOT) fs) as [[[]|] fs1]; [|reflexivity].
  specialize (H fs1 eq_refl eq_refl).
  destruct (locate_templates THIS fs1) as [[T|] fs2]; cbn in H;
    [|discriminate].
  injection H as ->. reflexivity.
Qed.

Lemma program_again (fs fs' : FS) (o : outcome unit) :
  program ROOT THIS environ re_search json_loads py_repr fs = (o, fs') ->
  program ROOT THIS environ re_search json_loads py_repr fs' = (o, fs').
Proof.
  intros H. rewrite program_unfold in H |- *.
  destruct (mkdir_exist_ok (OUT ROOT) fs) as [o1 fs1] eqn:Hmk.
  pose proof Hmk as Hmk0.
  apply mkdir_exist_ok_inv in Hmk
    as [(-> & -> & _)|(-> & Hdir & _ & _)].
  - inversion H; subst. rewrite Hmk0. reflexivity.
  - destruct (locate_templates THIS fs1) as [[T|] fs2] eqn:Hloc.
    + assert (Hd : fs' !! OUT ROOT = Some Dir).
      { rewrite (main_frame _ _ _ _ _ _ _ _ _ H _ (OUT_not_out_file ROOT)).
        exact Hdir. }
      unfold mkdir_exist_ok at 1. rewrite Hd.
      assert (Hl : fst (locate_templates THIS fs') = Ret T).
      { rewrite (locate_templates_ext THIS fs1 fs'), Hloc; [reflexivity|].
        intros q.
        apply (main_frame _ _ _ _ _ _ _ _ _ H).
        apply templates_dir_not_out_file. }
      destruct (locate_templates THIS fs') as [o2 fs3]. cbn in Hl. subst o2.
      exact (main_again _ _ _ _ _ _ _ _ _ H).
    + inversion H; subst.
      unfold mkdir_exist_ok at 1. rewrite Hdir, Hloc. reflexivity.
Qed.

Lemma locate_templates_mkdir (fs fs1 : FS) :
  mkdir_exist_ok (OUT ROOT) fs = (Ret tt, fs1) ->
  fst (locate_templates THIS fs1) = fst (locate_templates THIS fs).
Proof.
  intros Hmk. apply locate_templates_ext. intros q.
  apply mkdir_exist_ok_inv in Hmk
    as [(Habs & _)|(_ & _ & Hother & _)]; [discriminate|].
  apply Hother. unfold OUT. intros Heq.
  apply pjoin_inj in Heq as [_ Heq]. discriminate.
Qed.

(** The whole script writes to the output directory and its four files
    only. *)
Lemma program_frame (fs fs' : FS) (o : outcome unit) :
  program ROOT THIS environ re_search json_loads py_repr fs = (o, fs') ->
  forall p, p <> OUT ROOT -> ~ In p (out_files ROOT) -> fs' !! p = fs !! p.
Proof.
  rewrite program_unfold. intros H p Hp1 Hp2.
  destruct (mkdir_exist_ok (OUT ROOT) fs) as [o1 fs1] eqn:Hmk.
  apply mkdir_exist_ok_inv in Hmk
    as [(-> & -> & _)|(-> & _ & Hother & _)].
  - inversion H; subst. reflexivity.
  - destruct (locate_templates THIS fs1) as [[T|] fs2].
    + rewrite (main_frame _ _ _ _ _ _ _ _ _ H p Hp2). apply Hother. exact Hp1.
    + inversion H; subst. apply Hother. exact Hp1.
Qed.

(** C4. When the template of one output kind does not exist and no other
    input or output operation fails, the run completes: that output file is
    left as it was, [report.txt] holds the line that names the missing
    template, and every output whose template exists is rendered and
    written. *)
Theorem missing_template_reported (TEMPLATES : Path) (fs : FS)
    (info : DetectionResult) (key : string) (out_path tpl_path : Path) :
  fst (locate_templates THIS fs) = Ret TEMPLATES ->
  detect_language re_search json_loads ROOT fs = Ret info ->
  In (key, out_path) (outputs ROOT) ->
  bundle_get (main_bundle TEMPLATES info) key = Some tpl_path ->
  fs !! tpl_path = None ->
  io_ok ROOT TEMPLATES fs info ->
  exists (fs' : FS) (report_lines : list string),
    program ROOT THIS environ re_search json_loads py_repr fs = (Ret tt, fs')
    /\ fs' !! out_path = fs !! out_path
    /\ fs' !! (OUT ROOT // "report.txt")
       = Some (File (Some (str_join newline report_lines)))
    /\ In (not_found_line key (Some tpl_path)) report_lines
    /\ (forall key' out' p' s,
          In (key', out') (outputs ROOT) ->
          bundle_get (main_bundle TEMPLATES info) key' = Some p' ->
          fs !! p' = Some (File (Some s)) ->
          fs' !! out'
          = Some (File (Some (substitute py_repr s
                     (main_render_context TEMPLATES environ py_repr info))))).
Proof.
  intros Hloc Hdet Hitem Hget Hmissing Hio.
  rewrite (program_script TEMPLATES fs).
  - exact (script_missing_template ROOT TEMPLATES environ re_search json_loads
             py_repr fs info key out_path tpl_path Hdet Hitem Hget Hmissing Hio).
  - intros fs1 Hok ->. rewrite <- Hloc.
    apply locate_templates_mkdir.
    destruct (mkdir_exist_ok (OUT ROOT) fs) as [o1 fs2]. cbn in Hok |- *.
    subst o1. reflexivity.
Qed.

(** C9. Detection yields exactly one of the five tags; the bundle of the
    run depends on that tag only; the files of the run are the four fixed
    names inside the output directory and the run changes nothing else;
    the output directory is created when it is missing. *)
Theorem one_tag_one_bundle_fixed_outputs (fs : FS) :
  (exists info tag,
     detect_language re_search json_loads ROOT fs = Ret info
     /\ language info = Some tag /\ In tag tags)
  /\ (forall TEMPLATES info1 info2,
        language info1 = language info2 ->
        main_bundle TEMPLATES info1 = main_bundle TEMPLATES info2)
  /\ out_files ROOT
     = map (pjoin (OUT ROOT))
           ["Dockerfile"; "Jenkinsfile"; ".gitlab-ci.yml"; "report.txt"]
  /\ (forall p, p <> OUT ROOT -> ~ In p (out_files ROOT) ->
        snd (program ROOT THIS environ re_search json_loads py_repr fs) !! p
        = fs !! p)
  /\ (fs !! OUT ROOT = None ->
      snd (program ROOT THIS environ re_search json_loads py_repr fs)
        !! OUT ROOT = Some Dir).
Proof.
  repeat split.
  - destruct (detect_language_returns re_search json_loads ROOT fs)
      as (info & Hdet & Htag & _).
    exists info, (marker_tag fs ROOT). repeat split; auto.
    apply marker_tag_cases.
  - intros T info1 info2 H. unfold main_bundle. rewrite H. reflexivity.
  - intros p Hp1 Hp2.
    destruct (program ROOT THIS environ re_search json_loads py_repr fs)
      as [o fs'] eqn:H.
    exact (program_frame _ _ _ H p Hp1 Hp2).
  - intros Hnone. rewrite program_unfold.
    destruct (mkdir_exist_ok_ok (OUT ROOT) fs (or_introl Hnone))
      as (fs1 & -> & Hdir & _).
    destruct (locate_templates THIS fs1) as [[T|] fs2]; [|exact Hdir].
    destruct (main ROOT T environ re_search json_loads py_repr fs1)
      as [o fs'] eqn:H.
    cbn [snd].
    rewrite (main_frame _ _ _ _ _ _ _ _ _ H _ (OUT_not_out_file ROOT)).
    exact Hdir.
Qed.

(** C5. A second run of the whole script, started on what the first run
    left behind, ends the same way and leaves every file, the three outputs
    and [report.txt] among them, with the contents the first run gave
    it. *)
Theorem rerun_same_outputs (fs : FS) :
  let run := program ROOT THIS environ re_search json_loads py_repr in
  run (snd (run fs)) = run fs
  /\ (forall p, In p (out_files ROOT) ->
        snd (run (snd (run fs))) !! p = snd (run fs) !! p).
Proof.
  cbn zeta.
  destruct (program ROOT THIS environ re_search json_loads py_repr fs)
    as [o fs'] eqn:H.
  cbn [snd]. rewrite (program_again _ _ _ H). split; reflexivity.
Qed.

End WholeScript.



(** ** Rendering *)

Lemma append_cons (c : ascii) (a b : string) :
  String c a +:+ b = String c (a +:+ b).
Proof. reflexivity. Qed.

Lemma append_nil (s : string) : EmptyString +:+ s = s.
Proof. reflexivity. Qed.

Lemma append_assoc (a b c : string) : (a +:+ b) +:+ c = a +:+ (b +:+ c).
Proof.
  induction a as [|x a IH]; [reflexivity|].
  rewrite !append_cons. f_equal. exact IH.
Qed.

Lemma prefix_cons_ne (c d : ascii) (o s : string) :
  c <> d -> String.prefix (String c o) (String d s) = false.
Proof. intros H. cbn. destruct (ascii_dec c d); [contradiction|reflexivity]. Qed.

Lemma prefix_cons_eq (c : ascii) (o s : string) :
  String.prefix (String c o) (String c s) = String.prefix o s.
Proof. cbn. destruct (ascii_dec c c); [reflexivity|contradiction]. Qed.

Lemma prefix_append (o r : string) : String.prefix o (o +:+ r) = true.
Proof.
  induction o as [|c o IH]; [destruct r; reflexivity|].
  rewrite !append_cons. rewrite prefix_cons_eq. exact IH.
Qed.

Lemma token_unfold (k : string) :
  token k = String lbrace (String lbrace (k +:+ "}}")).
Proof. reflexivity. Qed.

Lemma str_replace_token (s k v : string) :
  str_replace s (token k) v = replace_from (token k) v 0 s.
Proof. reflexivity. Qed.

Lemma replace_from_skip (old new a r : string) :
  replace_from old new (String.length a) (a +:+ r) = replace_from old new 0 r.
Proof.
  induction a as [|c a IH]; [reflexivity|].
  rewrite append_cons. cbn [String.length replace_from]. exact IH.
Qed.

Lemma replace_from_0 (old new : string) (c : ascii) (s : string) :
  replace_from old new 0 (String c s) =
  if String.prefix old (String c s)
  then new +:+ replace_from old new (String.length old - 1) s
  else String c (replace_from old new 0 s).
Proof. reflexivity. Qed.

(** Literal text goes through a replacement of a token untouched. *)
Lemma replace_lit (k v l rest : string) :
  lit_ok l = true ->
  replace_from (token k) v 0 (l +:+ rest)
  = l +:+ replace_from (token k) v 0 rest.
Proof.
  induction l as [|c l IH]; intros Hok; [reflexivity|].
  cbn [lit_ok] in Hok. apply andb_prop in Hok as [Hc Hl].
  rewrite !append_cons. rewrite replace_from_0.
  assert (Hp : String.prefix (token k) (String c (l +:+ rest)) = false).
  { rewrite token_unfold.
    destruct (Ascii.eqb_spec c lbrace) as [->|Hne].
    - destruct l as [|d l']; [discriminate|].
      rewrite !append_cons. rewrite prefix_cons_eq.
      apply prefix_cons_ne. intros <-.
      rewrite Ascii.eqb_refl in Hc. discriminate.
    - apply prefix_cons_ne. congruence. }
  rewrite Hp, (IH Hl). reflexivity.
Qed.

Lemma brace_free_cons (c : ascii) (s : string) :
  brace_free (String c s) = true ->
  c <> lbrace /\ c <> rbrace /\ brace_free s = true.
Proof.
  cbn. intros H. apply andb_prop in H as [H Hs]. apply andb_prop in H as [Hl Hr].
  repeat split; [| |exact Hs]; intros ->;
    rewrite Ascii.eqb_refl in *; discriminate.
Qed.

Lemma brace_free_lit_ok (s t : string) :
  brace_free s = true -> lit_ok t = true -> lit_ok (s +:+ t) = true.
Proof.
  induction s as [|c s IH]; intros Hs Ht; [exact Ht|].
  apply brace_free_cons in Hs as (Hl & _ & Hs).
  rewrite append_cons. cbn [lit_ok].
  apply Ascii.eqb_neq in Hl. rewrite Hl. cbn [andb]. exact (IH Hs Ht).
Qed.

(** A token stays a token under the replacement of another one. *)
Lemma prefix_token_eq (k n rest : string) :
  brace_free k = true -> brace_free n = true ->
  String.prefix (k +:+ "}}") (n +:+ "}}" +:+ rest) = true -> k = n.
Proof.
  revert n. induction k as [|a k IH]; intros n Hk Hn Hp.
  - destruct n as [|c n]; [reflexivity|].
    apply brace_free_cons in Hn as (_ & Hr & _).
    rewrite append_nil, !append_cons in Hp.
    rewrite prefix_cons_ne in Hp; [discriminate|].
    intros Heq. apply Hr. symmetry. exact Heq.
  - apply brace_free_cons in Hk as (_ & Hr & Hk).
    destruct n as [|c n].
    + rewrite append_nil, !append_cons in Hp.
      rewrite prefix_cons_ne in Hp; [discriminate|exact Hr].
    + apply brace_free_cons in Hn as (_ & _ & Hn).
      rewrite !append_cons in Hp.
      destruct (ascii_dec a c) as [->|Hne].
      * rewrite prefix_cons_eq in Hp. rewrite (IH n Hk Hn Hp). reflexivity.
      * rewrite prefix_cons_ne in Hp by exact Hne. discriminate.
Qed.

Lemma token_tail_lit_ok (n : string) :
  brace_free n = true -> lit_ok (String lbrace (n +:+ "}}")) = true.
Proof.
  intros Hn. cbn [lit_ok]. rewrite Ascii.eqb_refl.
  rewrite (brace_free_lit_ok n "}}" Hn eq_refl), andb_true_r.
  destruct n as [|c n]; [reflexivity|].
  apply brace_free_cons in Hn as (Hl & _ & _).
  rewrite !append_cons. apply Ascii.eqb_neq in Hl. rewrite Hl. reflexivity.
Qed.

Lemma replace_token_hit (k v rest : string) :
  replace_from (token k) v 0 (token k +:+ rest)
  = v +:+ replace_from (token k) v 0 rest.
Proof.
  assert (E : token k +:+ rest
              = String lbrace (String lbrace (k +:+ "}}") +:+ rest)).
  { rewrite token_unfold, append_cons. reflexivity. }
  rewrite E, replace_from_0, <- E, prefix_append. f_equal.
  replace (String.length (token k) - 1)
    with (String.length (String lbrace (k +:+ "}}")))
    by (rewrite token_unfold; cbn [String.length]; lia).
  apply replace_from_skip.
Qed.

Lemma replace_token_miss (k v n rest : string) :
  brace_free k = true -> brace_free n = true -> n <> k ->
  replace_from (token k) v 0 (token n +:+ rest)
  = token n +:+ replace_from (token k) v 0 rest.
Proof.
  intros Hk Hn Hne.
  rewrite (token_unfold n). rewrite !append_cons. rewrite replace_from_0.
  assert (Hp : String.prefix (token k)
                 (String lbrace (String lbrace ((n +:+ "}}") +:+ rest))) = false).
  { rewrite token_unfold, !prefix_cons_eq, append_assoc.
    destruct (String.prefix (k +:+ "}}") (n +:+ "}}" +:+ rest)) eqn:E;
      [|reflexivity].
    exfalso. apply Hne. symmetry. exact (prefix_token_eq k n rest Hk Hn E). }
  rewrite Hp.
  change (String lbrace ((n +:+ "}}") +:+ rest))
    with (String lbrace (n +:+ "}}") +:+ rest).
  rewrite (replace_lit k v _ rest (token_tail_lit_ok n Hn)). reflexivity.
Qed.

Lemma flatten_cons (g : segment) (segs : list segment) :
  flatten (g :: segs) = seg_text g +:+ flatten segs.
Proof. reflexivity. Qed.

(** One replacement of the token of [k], read on the segments. *)
Lemma replace_flatten (k v : string) (segs : list segment) :
  brace_free k = true -> forallb seg_ok segs = true ->
  str_replace (flatten segs) (token k) v = flatten (map (step_seg k v) segs).
Proof.
  intros Hk. rewrite str_replace_token.
  induction segs as [|g segs IH]; intros Hok; [reflexivity|].
  cbn [forallb] in Hok. apply andb_prop in Hok as [Hg Hsegs].
  cbn [map]. rewrite !flatten_cons, <- (IH Hsegs).
  destruct g as [t|n]; cbn [seg_text step_seg seg_ok] in *.
  - apply replace_lit. exact Hg.
  - destruct (String.eqb_spec n k) as [->|Hne].
    + apply replace_token_hit.
    + apply replace_token_miss; assumption.
Qed.

Lemma step_seg_ok (k v : string) (segs : list segment) :
  lit_ok v = true -> forallb seg_ok segs = true ->
  forallb seg_ok (map (step_seg k v) segs) = true.
Proof.
  intros Hv. induction segs as [|g segs IH]; intros Hok; [reflexivity|].
  cbn [forallb map] in *. apply andb_prop in Hok as [Hg Hsegs].
  rewrite (IH Hsegs), andb_true_r.
  destruct g as [t|n]; cbn [step_seg seg_ok] in *; [exact Hg|].
  destruct (String.eqb n k); cbn [seg_ok]; [exact Hv|exact Hg].
Qed.

Section RenderingFacts.

Variable py_repr : pyval -> string.

Lemma subst_seg_step (k : string) (v : pyval) (vars : dict) (g : segment) :
  subst_seg py_repr vars (step_seg k (py_str py_repr v) g)
  = subst_seg py_repr ((k, v) :: vars) g.
Proof.
  destruct g as [t|n]; [reflexivity|]. cbn [step_seg subst_seg dict_get].
  destruct (String.eqb n k); reflexivity.
Qed.

(** The loop of the renderer on a template of well-formed segments, with
    brace-free keys and well-formed values, is the substitution the
    specification describes. *)
Lemma substitute_segments (vars : dict) (segs : list segment) :
  ctx_ok py_repr vars = true -> forallb seg_ok segs = true ->
  substitute py_repr (flatten segs) vars = render_spec py_repr vars segs.
Proof.
  revert segs. induction vars as [|[k v] vars IH]; intros segs Hctx Hok.
  - unfold substitute, render_spec. cbn [fold_left]. f_equal.
    induction segs as [|g segs IHs]; [reflexivity|].
    cbn [map]. rewrite <- IHs.
    + destruct g; reflexivity.
    + cbn [forallb] in Hok. apply andb_prop in Hok. tauto.
  - cbn [ctx_ok forallb fst snd] in Hctx.
    apply andb_prop in Hctx as [Hkv Hctx]. apply andb_prop in Hkv as [Hk Hv].
    unfold substitute. cbn [fold_left fst snd].
    change ("{{" +:+ k +:+ "}}") with (token k).
    rewrite (replace_flatten k _ segs Hk Hok).
    change (fold_left _ vars ?s) with (substitute py_repr s vars).
    rewrite (IH _ Hctx (step_seg_ok k _ segs Hv Hok)).
    unfold render_spec. rewrite map_map. f_equal.
    apply map_ext. intros g. apply subst_seg_step.
Qed.

(** C3 (amended). For a template made of literal text and of tokens with
    brace-free names, and for a context with brace-free keys, where in the
    literal text and in the strings of the values every opening brace is
    followed by a character other than an opening brace, [render_template]
    replaces every token whose name is a key by the string of its value and
    leaves the literal text and every other token as they are. *)
Theorem render_template_segments (fs : FS) (path : Path)
    (segs : list segment) (vars : dict) :
  fs !! path = Some (File (Some (flatten segs))) ->
  forallb seg_ok segs = true ->
  ctx_ok py_repr vars = true ->
  render_template py_repr fs (Some path) vars
  = Ret (Some (render_spec py_repr vars segs)).
Proof.
  intros Hfile Hok Hctx.
  unfold render_template, path_exists, read_text. rewrite Hfile. cbn.
  rewrite (substitute_segments vars segs Hctx Hok). reflexivity.
Qed.

End RenderingFacts.

(** ** The properties at work on the sample projects *)

(** A Maven project that also has a [package.json]. *)
Lemma detect_pom_beats_package_json_witness :
  path_exists demo_fs_java (demo_root // "pom.xml") = true
  /\ path_exists demo_fs_java (demo_root // "package.json") = true
  /\ exists info,
       detect_language demo_re_search demo_json_loads demo_root demo_fs_java
       = Ret info
       /\ language info = Some "java".
Proof.
  split; [reflexivity|]. split; [reflexivity|].
  apply (detect_pom_beats_package_json demo_re_search demo_json_loads
           demo_root demo_fs_java); reflexivity.
Defined.

Lemma demo_fs_only_go (m : string) :
  In m markers -> m <> "go.mod" ->
  path_exists demo_fs (demo_root // m) = false.
Proof.
  intros Hm Hne. cbn in Hm.
  repeat (destruct Hm as [<-|Hm]; [first [reflexivity | contradiction]|]).
  contradiction.
Defined.

(** The sample Go module. *)
Lemma detect_go_only_witness :
  path_exists demo_fs (demo_root // "go.mod") = true
  /\ exists info tpl,
       detect_language demo_re_search demo_json_loads demo_root demo_fs
       = Ret info
       /\ language info = Some "go"
       /\ choose_templates demo_templates (language info) = Some tpl
       /\ build_cmd tpl = "go build -v ./...".
Proof.
  split; [reflexivity|].
  apply (detect_go_only demo_templates demo_re_search demo_json_loads
           demo_root demo_fs); [reflexivity|exact demo_fs_only_go].
Defined.

Lemma demo_fs_plain_no_marker (m : string) :
  In m markers -> path_exists demo_fs_plain (demo_root // m) = false.
Proof.
  intros Hm. cbn in Hm.
  repeat (destruct Hm as [<-|Hm]; [reflexivity|]). contradiction.
Defined.

(** A project with a README only. *)
Lemma detect_none_generic_witness :
  exists info,
    detect_language demo_re_search demo_json_loads demo_root demo_fs_plain
    = Ret info
    /\ language info = Some "unknown"
    /\ main_bundle demo_templates info = generic_bundle demo_templates.
Proof.
  destruct (detect_none_generic demo_root demo_templates demo_environ
              demo_re_search demo_json_loads demo_repr demo_fs_plain
              demo_fs_plain_no_marker)
    as (info & Hdet & Hlang & _ & Hbundle & _).
  exists info. repeat split; assumption.
Defined.

(** An empty [go.mod]: the first line cannot be taken. *)
Lemma detect_language_recovers_witness :
  marker_tag demo_fs_empty_go demo_root = "go"
  /\ go_mod_unusable demo_fs_empty_go demo_root
  /\ exists info,
       detect_language demo_re_search demo_json_loads demo_root demo_fs_empty_go
       = Ret info
       /\ language info = Some "go"
       /\ details info = [("go_mod_first", PNone)].
Proof.
  assert (Htag : marker_tag demo_fs_empty_go demo_root = "go") by reflexivity.
  assert (Hbad : go_mod_unusable demo_fs_empty_go demo_root)
    by (right; reflexivity).
  split; [exact Htag|]. split; [exact Hbad|].
  destruct (detect_language_recovers demo_re_search demo_json_loads
              demo_root demo_fs_empty_go)
    as (info & Hdet & Hlang & _ & Hgo & _).
  exists info. split; [exact Hdet|]. split.
  - rewrite Hlang, Htag. reflexivity.
  - exact (Hgo Htag Hbad).
Defined.

(** The sample Go module, without [CI_REGISTRY_IMAGE]. *)
Lemma default_project_and_image_witness :
  demo_environ !! "CI_REGISTRY_IMAGE" = None
  /\ exists info,
       detect_language demo_re_search demo_json_loads demo_root demo_fs
       = Ret info
       /\ language info <> Some "node"
       /\ main_project_name info = PStr "local-project"
       /\ dict_get (main_vars demo_templates demo_environ demo_repr info)
            "IMAGE_NAME"
          = Some (PStr "local-project:latest").
Proof.
  split; [reflexivity|].
  destruct (default_project_and_image demo_root demo_templates demo_environ
              demo_re_search demo_json_loads demo_repr demo_fs)
    as (info & Hdet & Hnone & Hname & Himage).
  exists info. split; [exact Hdet|].
  assert (Hgo : language info <> Some "node").
  { assert (Hd : detect_language demo_re_search demo_json_loads demo_root demo_fs
                 = Ret demo_info) by reflexivity.
    rewrite Hd in Hdet. injection Hdet as <-. discriminate. }
  split; [exact Hgo|].
  destruct (Hname (Hnone (or_introl Hgo))) as [Hpn _].
  split; [exact Hpn|].
  destruct (Himage (or_introl eq_refl)) as [_ Hboth].
  exact (Hboth Hpn).
Defined.

Lemma demo_io_ok : io_ok demo_root demo_templates demo_fs demo_info.
Proof.
  unfold io_ok. split; [left; reflexivity|]. split.
  - intros p Hp. cbn in Hp.
    destruct Hp as [<-|[<-|[<-|[]]]];
      [right; eexists; reflexivity | left; reflexivity
      | right; eexists; reflexivity].
  - intros p Hp. cbn in Hp.
    destruct Hp as [<-|[<-|[<-|[<-|[]]]]]; discriminate.
Defined.

(** The sample Go module has no build-server template. *)
Lemma missing_template_reported_witness :
  demo_fs !! (demo_templates // "jenkins" // "Jenkinsfile.go") = None
  /\ exists (fs' : FS) (report_lines : list string),
       program demo_root demo_this demo_environ demo_re_search
         demo_json_loads demo_repr demo_fs = (Ret tt, fs')
       /\ fs' !! (OUT demo_root // "Jenkinsfile") = None
       /\ fs' !! (OUT demo_root // "report.txt")
          = Some (File (Some (str_join newline report_lines)))
       /\ In "Template for jenkins not found: /opt/tool/templates/jenkins/Jenkinsfile.go"
             report_lines
       /\ fs' !! (OUT demo_root // "Dockerfile")
          = Some (File (Some
              "RUN go build -v ./... # {{PROJECT_NAME}} {{UNKNOWN_VAR}}")).
Proof.
  split; [reflexivity|].
  destruct (missing_template_reported demo_root demo_this demo_environ
              demo_re_search demo_json_loads demo_repr demo_templates
              demo_fs demo_info
              "jenkins" (OUT demo_root // "Jenkinsfile")
              (demo_templates // "jenkins" // "Jenkinsfile.go"))
    as (fs' & report_lines & Hrun & Hkeep & Hreport & Hline & Hothers).
  - reflexivity.
  - reflexivity.
  - cbn. tauto.
  - reflexivity.
  - reflexivity.
  - exact demo_io_ok.
  - exists fs', report_lines. split; [exact Hrun|].
    split; [rewrite Hkeep; reflexivity|].
    split; [exact Hreport|]. split; [exact Hline|].
    rewrite (Hothers "docker" (OUT demo_root // "Dockerfile")
               (demo_templates // "docker" // "Dockerfile.go") demo_docker_text);
      [reflexivity | cbn; tauto | reflexivity | reflexivity].
Defined.

(** The run on the sample Go module creates the output directory and
    leaves [go.mod] alone. *)
Lemma one_tag_one_bundle_fixed_outputs_witness :
  demo_fs !! OUT demo_root = None
  /\ snd (program demo_root demo_this demo_environ demo_re_search
            demo_json_loads demo_repr demo_fs) !! OUT demo_root = Some Dir
  /\ snd (program demo_root demo_this demo_environ demo_re_search
            demo_json_loads demo_repr demo_fs) !! (demo_root // "go.mod")
     = demo_fs !! (demo_root // "go.mod").
Proof.
  destruct (one_tag_one_bundle_fixed_outputs demo_root demo_this
              demo_environ demo_re_search demo_json_loads demo_repr demo_fs)
    as (_ & _ & _ & Hframe & Hcreated).
  split; [reflexivity|]. split; [apply Hcreated; reflexivity|].
  apply Hframe.
  - discriminate.
  - cbn. intros H.
    repeat (destruct H as [H|H]; [discriminate|]). exact H.
Defined.

(** The example of the specification. *)
Lemma render_template_segments_witness :
  example_fs !! example_path = Some (File (Some (flatten example_segs)))
  /\ forallb seg_ok example_segs = true
  /\ ctx_ok demo_repr example_vars = true
  /\ render_template demo_repr example_fs (Some example_path) example_vars
     = Ret (Some "RUN go build ./... # demo {{UNKNOWN_VAR}}").
Proof.
  split; [reflexivity|]. split; [reflexivity|]. split; [reflexivity|].
  rewrite (render_template_segments demo_repr example_fs example_path
             example_segs example_vars); reflexivity.
Defined.

(** C3, as stated, fails.  A value that holds the token of a later key is
    itself rewritten, so the token [{{A}}] does not become the value of
    [A]; and text around a token that closes into the token of a later key
    once the first is replaced is rewritten too, although the template
    never held that token. *)
Lemma render_template_chained_counterexample :
  (chain_fs !! example_path = Some (File (Some "{{A}}"))
   /\ render_template demo_repr chain_fs (Some example_path) chain_vars
      = Ret (Some "x")
   /\ render_spec demo_repr chain_vars chain_segs = "{{B}}"
   /\ render_template demo_repr chain_fs (Some example_path) chain_vars
      <> Ret (Some (render_spec demo_repr chain_vars chain_segs)))
  /\ (splice_fs !! example_path = Some (File (Some "{{{{A}}B}}"))
      /\ render_template demo_repr splice_fs (Some example_path) splice_vars
         = Ret (Some "x")
      /\ render_spec demo_repr splice_vars splice_segs = "{{B}}"
      /\ render_template demo_repr splice_fs (Some example_path) splice_vars
         <> Ret (Some (render_spec demo_repr splice_vars splice_segs))).
Proof.
  split; (split; [reflexivity|]; split; [reflexivity|];
          split; [reflexivity|]; discriminate).
Qed.

(** C2 fails on the code: [main] builds [PROJECT_NAME] and the detail keys
    into [vars] but hands the renderer six other entries only, so the
    token [{{PROJECT_NAME}}] of a present template reaches the written file
    unreplaced. *)
Lemma project_name_token_not_rendered :
  let run := program demo_root demo_this demo_environ demo_re_search
               demo_json_loads demo_repr demo_fs in
  fst run = Ret tt
  /\ demo_fs !! (demo_templates // "docker" // "Dockerfile.go")
     = Some (File (Some "RUN {{BUILD_CMD}} # {{PROJECT_NAME}} {{UNKNOWN_VAR}}"))
  /\ dict_get (main_vars demo_templates demo_environ demo_repr demo_info)
       "PROJECT_NAME" = Some (PStr "local-project")
  /\ dict_get (main_render_context demo_templates demo_environ demo_repr demo_info)
       "PROJECT_NAME" = None
  /\ snd run !! (OUT demo_root // "Dockerfile")
     = Some (File (Some
         "RUN go build -v ./... # {{PROJECT_NAME}} {{UNKNOWN_VAR}}")).
Proof. cbn zeta. repeat split; vm_compute; reflexivity. Qed.

(** * Further properties of the program *)

(** ** Detection *)

Lemma find_first {A} (f : A -> bool) (before : list A) (m : A) (after : list A) :
  (forall x, In x before -> f x = false) -> f m = true ->
  find f (before ++ m :: after) = Some m.
Proof.
  intros Hb Hm. induction before as [|x before IH]; cbn.
  - rewrite Hm. reflexivity.
  - rewrite (Hb x) by (simpl; tauto). apply IH.
    intros y Hy. apply Hb. simpl. tauto.
Qed.

Lemma read_text_exists (fs : FS) (p : Path) (s : string) :
  read_text fs p = Ret s -> path_exists fs p = true.
Proof.
  unfold read_text, path_exists. destruct (fs !! p); [reflexivity|discriminate].
Qed.

Lemma line_prefix_split (s : string) :
  exists rest, s = line_prefix s +:+ rest.
Proof.
  induction s as [|c s [rest IH]]; [exists EmptyString; reflexivity|].
  cbn [line_prefix]. destruct (at_linebreak (String c s)).
  - exists (String c s). reflexivity.
  - exists rest. rewrite append_cons, <- IH. reflexivity.
Qed.

Lemma line_prefix_no_break (s : string) (c : ascii) :
  In c (list_ascii_of_string (line_prefix s)) ->
  c <> "010"%char /\ c <> "013"%char.
Proof.
  induction s as [|d s IH]; [intros []|].
  cbn [line_prefix]. destruct (at_linebreak (String d s)) eqn:E; [intros []|].
  cbn [list_ascii_of_string In]. intros [<-|Hin]; [|exact (IH Hin)].
  split; intros ->; vm_compute in E; discriminate.
Qed.

Section DetectionMore.

Variable re_search : string -> string -> option string.
Variable json_loads : string -> option pyval.

(** X1. The tag is the one of the first marker file, in the order of the
    [if]/[elif] chain, that exists under the root. *)
Theorem detect_first_marker (root : Path) (fs : FS)
    (before : list string) (m : string) (after : list string) :
  markers = before ++ m :: after ->
  (forall x, In x before -> path_exists fs (root // x) = false) ->
  path_exists fs (root // m) = true ->
  exists info,
    detect_language re_search json_loads root fs = Ret info
    /\ language info = Some (marker_owner m).
Proof.
  intros Hsplit Hbefore Hm.
  destruct (detect_language_returns re_search json_loads root fs)
    as (info & Hdet & Htag & _).
  exists info. split; [exact Hdet|]. rewrite Htag. unfold marker_tag.
  rewrite Hsplit.
  rewrite (find_first (fun m => path_exists fs (root // m)) before m after
             Hbefore Hm).
  reflexivity.
Qed.

(** X2. The details are empty exactly when the tag has no manifest to look
    into: java without [pom.xml], python without [pyproject.toml], and
    unknown. *)
Theorem detect_details_empty_iff (root : Path) (fs : FS) :
  exists info,
    detect_language re_search json_loads root fs = Ret info
    /\ (details info = []
        <-> (language info = Some "java"
             /\ path_exists fs (root // "pom.xml") = false)
            \/ (language info = Some "python"
                /\ path_exists fs (root // "pyproject.toml") = false)
            \/ language info = Some "unknown").
Proof.
  destruct (detect_language_returns re_search json_loads root fs)
    as (info & Hdet & Htag & Hdetails).
  exists info. split; [exact Hdet|]. rewrite Htag, Hdetails.
  unfold details_of.
  pose proof (marker_tag_cases fs root) as Hcases. cbn in Hcases.
  destruct Hcases as [H|[H|[H|[H|[H|[]]]]]]; rewrite <- H; cbn.
  - destruct (path_exists fs (root // "pom.xml")); split;
      try discriminate; try tauto;
      intros [[_ ?]|[[? _]|?]]; discriminate.
  - split; [discriminate|]. intros [[? _]|[[? _]|?]]; discriminate.
  - split.
    + destruct (package_of json_loads fs root); discriminate.
    + intros [[? _]|[[? _]|?]]; discriminate.
  - destruct (path_exists fs (root // "pyproject.toml")); split;
      try discriminate; try tauto;
      intros [[? _]|[[_ ?]|?]]; discriminate.
  - split; [tauto|reflexivity].
Qed.

(** X3. With a readable [pom.xml] the Java version recorded is the match of
    [maven.compiler.source] when there is one, whatever [java.version]
    says, and the match of [java.version] otherwise. *)
Theorem detect_java_version_preference (root : Path) (fs : FS)
    (content : string) :
  read_text fs (root // "pom.xml") = Ret content ->
  exists info,
    detect_language re_search json_loads root fs = Ret info
    /\ language info = Some "java"
    /\ (forall v, re_search pat_maven_source content = Some v ->
          details info = [("java_version", PStr v)])
    /\ (re_search pat_maven_source content = None ->
        forall v, re_search pat_java_version content = Some v ->
          details info = [("java_version", PStr v)]).
Proof.
  intros Hread. pose proof (read_text_exists _ _ _ Hread) as Hpom.
  destruct (detect_language_returns re_search json_loads root fs)
    as (info & Hdet & Htag & Hdetails).
  assert (Hjava : marker_tag fs root = "java").
  { unfold marker_tag, markers. cbn [find]. rewrite Hpom. reflexivity. }
  exists info. split; [exact Hdet|]. rewrite Htag, Hdetails, Hjava.
  split; [reflexivity|].
  unfold details_of, java_version_of. rewrite Hjava, Hpom, Hread. cbn.
  split.
  - intros v ->. reflexivity.
  - intros -> v ->. reflexivity.
Qed.

(** X4. For a node project whose [package.json] parses to an object, the
    details are its [name], [scripts] and [engines] members, in this order,
    with [None], the empty dictionary and [None] for a missing one. *)
Theorem detect_node_details (root : Path) (fs : FS) (text : string) (d : dict) :
  (forall x, In x ["pom.xml"; "build.gradle"; "build.gradle.kts"; "go.mod"] ->
     path_exists fs (root // x) = false) ->
  read_text fs (root // "package.json") = Ret text ->
  json_loads text = Some (PDict d) ->
  exists info,
    detect_language re_search json_loads root fs = Ret info
    /\ language info = Some "node"
    /\ details info
       = [ ("name", default PNone (dict_get d "name"));
           ("scripts", default (PDict []) (dict_get d "scripts"));
           ("engines", default PNone (dict_get d "engines")) ].
Proof.
  intros Hnone Hread Hjson. pose proof (read_text_exists _ _ _ Hread) as Hpkg.
  destruct (detect_language_returns re_search json_loads root fs)
    as (info & Hdet & Htag & Hdetails).
  assert (Hnode : marker_tag fs root = "node").
  { unfold marker_tag, markers. cbn [find].
    rewrite !Hnone by (simpl; tauto). rewrite Hpkg. reflexivity. }
  exists info. split; [exact Hdet|]. rewrite Htag, Hdetails, Hnode.
  split; [reflexivity|].
  unfold details_of, package_of. rewrite Hnode, Hread, Hjson. reflexivity.
Qed.

(** X5. For a go project with a readable, non-empty [go.mod] the detail
    [go_mod_first] is the text of the file up to its first line break. *)
Theorem detect_go_first_line (root : Path) (fs : FS) (text : string) :
  (forall x, In x ["pom.xml"; "build.gradle"; "build.gradle.kts"] ->
     path_exists fs (root // x) = false) ->
  read_text fs (root // "go.mod") = Ret text ->
  text <> EmptyString ->
  exists info first rest,
    detect_language re_search json_loads root fs = Ret info
    /\ language info = Some "go"
    /\ details info = [("go_mod_first", PStr first)]
    /\ text = first +:+ rest
    /\ (forall c, In c (list_ascii_of_string first) ->
          c <> "010"%char /\ c <> "013"%char).
Proof.
  intros Hnone Hread Hne. pose proof (read_text_exists _ _ _ Hread) as Hgo.
  destruct (detect_language_returns re_search json_loads root fs)
    as (info & Hdet & Htag & Hdetails).
  assert (Hg : marker_tag fs root = "go").
  { unfold marker_tag, markers. cbn [find].
    rewrite !Hnone by (simpl; tauto). rewrite Hgo. reflexivity. }
  destruct (line_prefix_split text) as [rest Hrest].
  exists info, (line_prefix text), rest.
  split; [exact Hdet|]. rewrite Htag, Hdetails, Hg. split; [reflexivity|].
  split.
  - unfold details_of, go_mod_first_of. rewrite Hg, Hread. cbn.
    destruct text; [contradiction|reflexivity].
  - split; [exact Hrest|]. intros c. apply line_prefix_no_break.
Qed.

End DetectionMore.

(** ** The listing of the root *)

Lemma insert_sorted_In (x y : string) (l : list string) :
  In y (insert_sorted x l) <-> y = x \/ In y l.
Proof.
  induction l as [|z l IH]; cbn.
  - intuition.
  - destruct (String.leb x z); cbn; [intuition|]. rewrite IH. intuition.
Qed.

Lemma sorted_In (y : string) (l : list string) : In y (sorted l) <-> In y l.
Proof.
  induction l as [|x l IH]; cbn; [tauto|].
  rewrite insert_sorted_In, IH. intuition.
Qed.

Lemma insert_sorted_NoDup (x : string) (l : list string) :
  ~ In x l -> NoDup l -> NoDup (insert_sorted x l).
Proof.
  induction l as [|z l IH]; intros Hx Hnd; cbn.
  - apply NoDup_cons_2; [rewrite list_elem_of_In; exact Hx|exact Hnd].
  - destruct (String.leb x z).
    + apply NoDup_cons_2; [rewrite list_elem_of_In; exact Hx|exact Hnd].
    + apply NoDup_cons in Hnd as [Hz Hnd]. rewrite list_elem_of_In in Hz.
      apply NoDup_cons_2.
      * rewrite list_elem_of_In, insert_sorted_In. intros [->|Hin].
        -- apply Hx. simpl. tauto.
        -- exact (Hz Hin).
      * apply IH; [|exact Hnd]. intros Hin. apply Hx. simpl. tauto.
Qed.

Lemma sorted_NoDup (l : list string) : NoDup l -> NoDup (sorted l).
Proof.
  induction l as [|x l IH]; intros Hnd; cbn; [exact Hnd|].
  apply NoDup_cons in Hnd as [Hx Hnd]. rewrite list_elem_of_In in Hx.
  apply insert_sorted_NoDup; [|exact (IH Hnd)].
  rewrite sorted_In. exact Hx.
Qed.

Lemma insert_sorted_is_sorted (x : string) (l : list string) :
  is_sorted l = true -> is_sorted (insert_sorted x l) = true.
Proof.
  induction l as [|z l IH]; intros Hs; [reflexivity|].
  cbn [insert_sorted]. destruct (String.leb x z) eqn:Exz.
  - cbn [is_sorted]. rewrite Exz. exact Hs.
  - assert (Hzx : String.leb z x = true).
    { destruct (String.leb_total x z) as [H|H]; [congruence|exact H]. }
    destruct l as [|w l].
    + cbn. rewrite Hzx. reflexivity.
    + cbn [is_sorted] in Hs. apply andb_prop in Hs as [Hzw Hs].
      specialize (IH Hs). cbn [insert_sorted] in IH |- *.
      destruct (String.leb x w).
      * cbn [is_sorted] in IH |- *. rewrite Hzx. exact IH.
      * cbn [is_sorted] in IH |- *. rewrite Hzw. exact IH.
Qed.

Lemma sorted_is_sorted (l : list string) : is_sorted (sorted l) = true.
Proof.
  induction l as [|x l IH]; [reflexivity|].
  cbn [sorted foldr]. apply insert_sorted_is_sorted. exact IH.
Qed.

Section ListingFacts.

Variable re_search : string -> string -> option string.
Variable json_loads : string -> option pyval.

(** X6. [found_files] lists the names of the regular files directly under
    the root, and only those, each once, in ascending order. *)
Theorem detect_found_files (root : Path) (fs : FS) :
  exists info,
    detect_language re_search json_loads root fs = Ret info
    /\ is_sorted (found_files info) = true
    /\ NoDup (found_files info)
    /\ (forall n, In n (found_files info)
                  <-> exists t, fs !! (root // n) = Some (File t)).
Proof.
  eexists. split; [apply detect_language_eq|]. cbn [found_files].
  split; [apply sorted_is_sorted|]. split.
  - apply sorted_NoDup. apply NoDup_elements.
  - intros n. rewrite sorted_In, <- list_elem_of_In, elem_of_elements.
    apply elem_of_glob_files.
Qed.

(** X7. The tag and the details depend on the marker files only: two roots
    that agree on them are detected alike, whatever else they hold. *)
Theorem detect_depends_on_markers (root : Path) (fs fs' : FS) :
  (forall m, In m markers -> fs !! (root // m) = fs' !! (root // m)) ->
  exists info info',
    detect_language re_search json_loads root fs = Ret info
    /\ detect_language re_search json_loads root fs' = Ret info'
    /\ language info = language info'
    /\ details info = details info'.
Proof.
  intros Hm.
  assert (Hpe : forall m, In m markers ->
            path_exists fs (root // m) = path_exists fs' (root // m)).
  { intros m Hin. unfold path_exists. rewrite (Hm m Hin). reflexivity. }
  assert (Hrd : forall m, In m markers ->
            read_text fs (root // m) = read_text fs' (root // m)).
  { intros m Hin. unfold read_text. rewrite (Hm m Hin). reflexivity. }
  assert (Htag : marker_tag fs root = marker_tag fs' root).
  { unfold marker_tag, markers. cbn [find].
    rewrite !Hpe by (simpl; tauto). reflexivity. }
  eexists. eexists. split; [apply detect_language_eq|].
  split; [apply detect_language_eq|]. cbn [language details].
  split; [rewrite Htag; reflexivity|].
  unfold details_of, java_version_of, go_mod_first_of, package_of,
    python_requires_of.
  rewrite Htag, !Hpe, !Hrd by (simpl; tauto). reflexivity.
Qed.

End ListingFacts.

(** ** Template selection and rendering *)

Section SelectionFacts.

Variable TEMPLATES : Path.

(** X8. The table has a bundle for the four ecosystem tags and for nothing
    else, and the three templates of a tag are named after it:
    [docker/Dockerfile.<tag>], [jenkins/Jenkinsfile.<tag>] and
    [gitlab/.gitlab-ci.<tag>.yml] under the templates directory. *)
Theorem choose_templates_naming (lang : string) :
  (forall tpl, choose_templates TEMPLATES (Some lang) = Some tpl ->
     In lang ["java"; "go"; "node"; "python"]
     /\ docker tpl = TEMPLATES // "docker" // ("Dockerfile." +:+ lang)
     /\ jenkins tpl = TEMPLATES // "jenkins" // ("Jenkinsfile." +:+ lang)
     /\ gitlab tpl = TEMPLATES // "gitlab" // (".gitlab-ci." +:+ lang +:+ ".yml"))
  /\ (choose_templates TEMPLATES (Some lang) = None
      <-> ~ In lang ["java"; "go"; "node"; "python"])
  /\ choose_templates TEMPLATES None = None.
Proof.
  unfold choose_templates, template_table. cbn [table_get].
  destruct (String.eqb_spec lang "java") as [->|Hj].
  { split; [intros tpl [= <-]; cbn; tauto|].
    split; [|reflexivity]. split; [discriminate|]. cbn. tauto. }
  destruct (String.eqb_spec lang "go") as [->|Hg].
  { split; [intros tpl [= <-]; cbn; tauto|].
    split; [|reflexivity]. split; [discriminate|]. cbn. tauto. }
  destruct (String.eqb_spec lang "node") as [->|Hn].
  { split; [intros tpl [= <-]; cbn; tauto|].
    split; [|reflexivity]. split; [discriminate|]. cbn. tauto. }
  destruct (String.eqb_spec lang "python") as [->|Hp].
  { split; [intros tpl [= <-]; cbn; tauto|].
    split; [|reflexivity]. split; [discriminate|]. cbn. tauto. }
  split; [discriminate|]. split; [|reflexivity].
  split; [|reflexivity]. intros _. cbn. intros [H|[H|[H|[H|[]]]]]; congruence.
Qed.

End SelectionFacts.

Lemma replace_from_absent (old new s : string) :
  occurs old s = false -> replace_from old new 0 s = s.
Proof.
  induction s as [|c s IH]; [reflexivity|].
  cbn [occurs]. intros H. apply orb_false_elim in H as [Hp Hs].
  rewrite replace_from_0, Hp, (IH Hs). reflexivity.
Qed.

Section RenderingMore.

Variable py_repr : pyval -> string.

(** X9. [render_template] gives [None] exactly when there is no path or
    nothing at the path, raises exactly when the path holds a directory or
    a file that cannot be read, and otherwise gives the substituted text of
    the file. *)
Theorem render_template_outcomes (fs : FS) (path : option Path) (vars : dict) :
  (render_template py_repr fs path vars = Ret None
   <-> path = None \/ exists p, path = Some p /\ fs !! p = None)
  /\ (render_template py_repr fs path vars = Raise
      <-> exists p, path = Some p
            /\ (fs !! p = Some Dir \/ fs !! p = Some (File None)))
  /\ (forall text, render_template py_repr fs path vars = Ret (Some text)
      <-> exists p s, path = Some p /\ fs !! p = Some (File (Some s))
            /\ text = substitute py_repr s vars).
Proof.
  destruct path as [p|]; unfold render_template, path_exists, read_text.
  - destruct (fs !! p) as [[|[s|]]|] eqn:E; cbn; repeat split;
      try discriminate; try tauto; eauto.
    + intros [H|(q & [= <-] & H)]; congruence.
    + intros (q & s & [= <-] & H & _); congruence.
    + intros [H|(q & [= <-] & H)]; congruence.
    + intros (q & [= <-] & [H|H]); congruence.
    + intros [= <-]. eauto.
    + intros (q & s' & [= <-] & H & ->). congruence.
    + intros [H|(q & [= <-] & H)]; congruence.
    + intros (q & s & [= <-] & H & _); congruence.
    + intros (q & [= <-] & [H|H]); congruence.
    + intros (q & s & [= <-] & H & _); congruence.
  - repeat split; try discriminate; try tauto.
    + intros (q & H & _); discriminate.
    + intros (q & s & H & _); discriminate.
Qed.

(** X10. A template that holds the token of no key of the context is
    returned as it is. *)
Theorem render_template_no_token (fs : FS) (p : Path) (s : string)
    (vars : dict) :
  fs !! p = Some (File (Some s)) ->
  (forall k v, In (k, v) vars -> occurs (token k) s = false) ->
  render_template py_repr fs (Some p) vars = Ret (Some s).
Proof.
  intros Hfile Hno.
  unfold render_template, path_exists, read_text. rewrite Hfile. cbn.
  do 2 f_equal. unfold substitute.
  induction vars as [|[k v] vars IH]; [reflexivity|].
  cbn [fold_left fst snd].
  change ("{{" +:+ k +:+ "}}") with (token k).
  rewrite str_replace_token, replace_from_absent
    by (apply (Hno k v); simpl; tauto).
  apply IH. intros k' v' Hin. apply (Hno k' v'). simpl. tauto.
Qed.

End RenderingMore.

(** ** The run *)

Section RunMore.

Variable ROOT : Path.
Variable THIS : Path.
Variable environ : gmap string string.
Variable re_search : string -> string -> option string.
Variable json_loads : string -> option pyval.
Variable py_repr : pyval -> string.

(** With readable templates and writable outputs the loop reports one line
    per output kind, in order, and leaves at each output path the rendered
    template or what was there. *)
Lemma render_loop_exact (items : list (string * Path)) (tpl : bundle)
    (vars args : dict) :
  render_args vars = Ret args ->
  loop_wf tpl items ->
  forall (lines : list string) (fs : FS),
  (forall out, In out (map snd items) ->
     fs !! parent out = Some Dir /\ fs !! out <> Some Dir) ->
  (forall p, In p (template_paths tpl) ->
     fs !! p = None \/ exists s, fs !! p = Some (File (Some s))) ->
  exists fs' : FS,
    render_loop py_repr items tpl vars lines fs
    = (Ret (lines ++ map (item_line fs tpl) items), fs')
    /\ (forall item, In item items ->
          fs' !! snd item = item_node py_repr fs tpl args item).
Proof.
  intros Hargs. induction items as [|[key out_path] rest IH];
    intros Hwf lines fs Hout Htpl.
  - exists fs. cbn. unfold ret. rewrite app_nil_r. split; [reflexivity|].
    intros item [].
  - pose proof (loop_wf_tail _ _ _ Hwf) as Hwf'.
    destruct Hwf as (Hnd & Hpar & Hdis). cbn [map snd] in *.
    apply NoDup_cons in Hnd as [Hfresh Hnd]. rewrite list_elem_of_In in Hfresh.
    rewrite render_loop_cons, Hargs.
    rewrite render_template_present
      by (intros p Hp; apply Htpl; exact (bundle_get_in re_search json_loads _ _ _ Hp)).
    unfold item_line at 1. cbn [fst snd].
    destruct (template_text fs (bundle_get tpl key)) as [s|] eqn:Htext;
      cbn [option_map].
    + destruct (Hout out_path (or_introl eq_refl)) as [Hdir Hnot].
      unfold write_text at 1. rewrite Hdir.
      set (fs1 := <[out_path := File (Some (substitute py_repr s args))]> fs).
      assert (Hw : match fs !! out_path with
                   | Some Dir => (@Raise unit, fs)
                   | _ => (Ret tt, fs1)
                   end = (Ret tt, fs1)).
      { destruct (fs !! out_path) as [[|u]|]; [congruence|reflexivity..]. }
      rewrite Hw. clear Hw.
      assert (Hne : forall q, In q (map snd rest) \/ In q (template_paths tpl)
                              \/ In q (map parent (map snd rest)) ->
                              fs1 !! q = fs !! q).
      { intros q Hq. apply lookup_insert_ne. intros <-.
        destruct Hq as [Hq|[Hq|Hq]].
        - exact (Hfresh Hq).
        - apply (Hdis out_path Hq). simpl. tauto.
        - apply in_map_iff in Hq as (o' & Ho' & Hin).
          apply (Hpar o'); simpl; [tauto|]. left. symmetry. exact Ho'. }
      assert (Ht : forall item : string * Path,
                template_text fs1 (bundle_get tpl (fst item))
                = template_text fs (bundle_get tpl (fst item))).
      { intros item. unfold template_text.
        destruct (bundle_get tpl (fst item)) as [p|] eqn:Hb; [|reflexivity].
        rewrite Hne; [reflexivity|]. right. left.
        exact (bundle_get_in re_search json_loads _ _ _ Hb). }
      destruct (IH Hwf' (lines ++ [wrote_line out_path]) fs1)
        as (fs' & Hrun & Hres).
      { intros out Hin. rewrite !Hne.
        - apply Hout. right. exact Hin.
        - left. exact Hin.
        - right. right. apply in_map. exact Hin. }
      { intros p Hp. rewrite Hne by tauto. apply Htpl. exact Hp. }
      exists fs'. split.
      { rewrite Hrun, <- app_assoc. cbn [app map].
        rewrite (map_ext (item_line fs1 tpl) (item_line fs tpl));
          [reflexivity|].
        intros item. unfold item_line. rewrite Ht. reflexivity. }
      intros item [<-|Hin].
      * unfold item_node. cbn [fst snd]. rewrite Htext.
        rewrite (render_loop_frame _ _ _ _ _ _ _ _ Hrun _ Hfresh).
        apply lookup_insert_eq.
      * rewrite (Hres item Hin). unfold item_node. rewrite Ht.
        destruct (template_text fs (bundle_get tpl (fst item))); [reflexivity|].
        apply Hne. left. apply in_map. exact Hin.
    + destruct (IH Hwf' (lines ++ [not_found_line key (bundle_get tpl key)]) fs)
        as (fs' & Hrun & Hres).
      { intros out Hin. apply Hout. right. exact Hin. }
      { exact Htpl. }
      exists fs'. split.
      { rewrite Hrun, <- app_assoc. reflexivity. }
      intros item [<-|Hin].
      * unfold item_node. cbn [fst snd]. rewrite Htext.
        exact (render_loop_frame _ _ _ _ _ _ _ _ Hrun _ Hfresh).
      * exact (Hres item Hin).
Qed.

(** The start-up of the whole script, when it goes through. *)
Lemma program_start (TEMPLATES : Path) (fs : FS) :
  fst (locate_templates THIS fs) = Ret TEMPLATES ->
  fs !! OUT ROOT = None \/ fs !! OUT ROOT = Some Dir ->
  exists fs1 : FS,
    program ROOT THIS environ re_search json_loads py_repr fs
    = main ROOT TEMPLATES environ re_search json_loads py_repr fs1
    /\ fs1 !! OUT ROOT = Some Dir
    /\ (forall q, q <> OUT ROOT -> fs1 !! q = fs !! q)
    /\ detect_language re_search json_loads ROOT fs1
       = detect_language re_search json_loads ROOT fs.
Proof.
  intros Hloc Hout.
  destruct (mkdir_exist_ok_ok (OUT ROOT) fs Hout) as (fs1 & Hmk & Hdir & Hsame).
  exists fs1. rewrite program_unfold, Hmk.
  pose proof (locate_templates_mkdir ROOT THIS fs fs1 Hmk) as Hl.
  rewrite Hloc in Hl.
  destruct (locate_templates THIS fs1) as [o2 fs2]. cbn in Hl. subst o2.
  split; [reflexivity|]. split; [exact Hdir|]. split; [exact Hsame|].
  exact (detect_language_mkdir ROOT re_search json_loads fs fs1 Hmk).
Qed.

(** The run that meets no failing operation. *)
Lemma program_run_ok (TEMPLATES : Path) (fs : FS) (info : DetectionResult) :
  fst (locate_templates THIS fs) = Ret TEMPLATES ->
  detect_language re_search json_loads ROOT fs = Ret info ->
  io_ok ROOT TEMPLATES fs info ->
  exists fs' : FS,
    program ROOT THIS environ re_search json_loads py_repr fs = (Ret tt, fs')
    /\ fs' !! (OUT ROOT // "report.txt")
       = Some (File (Some (str_join newline
           (main_report_head TEMPLATES py_repr info
            ++ map (item_line fs (main_bundle TEMPLATES info)) (outputs ROOT)))))
    /\ (forall item, In item (outputs ROOT) ->
          fs' !! snd item
          = item_node py_repr fs (main_bundle TEMPLATES info)
              (main_render_context TEMPLATES environ py_repr info) item).
Proof.
  intros Hloc Hdet (Hout & Htpl & Hnodir).
  destruct (program_start TEMPLATES fs Hloc Hout)
    as (fs1 & -> & Hdir & Hsame & Hdet1).
  assert (Htsame : forall p,
            In p (template_paths (main_bundle TEMPLATES info)) ->
            fs1 !! p = fs !! p).
  { intros p Hp. apply Hsame. intros ->.
    apply (template_not_output ROOT TEMPLATES re_search json_loads info _ Hp). right. reflexivity. }
  assert (Hosame : forall p, In p (out_files ROOT) -> fs1 !! p = fs !! p).
  { intros p Hp. apply Hsame. apply out_file_parent. exact Hp. }
  assert (Htext : forall item : string * Path,
            template_text fs1 (bundle_get (main_bundle TEMPLATES info) (fst item))
            = template_text fs (bundle_get (main_bundle TEMPLATES info) (fst item))).
  { intros item. unfold template_text.
    destruct (bundle_get (main_bundle TEMPLATES info) (fst item)) as [p|] eqn:Hb;
      [|reflexivity].
    rewrite (Htsame p (bundle_get_in re_search json_loads _ _ _ Hb)). reflexivity. }
  rewrite main_unfold, Hdet1, Hdet.
  destruct (render_loop_exact (outputs ROOT) (main_bundle TEMPLATES info)
              (main_vars TEMPLATES environ py_repr info)
              (main_render_context TEMPLATES environ py_repr info)
              (render_args_main ROOT TEMPLATES environ re_search json_loads
                 py_repr fs info Hdet)
              (outputs_wf ROOT TEMPLATES re_search json_loads info)
              (main_report_head TEMPLATES py_repr info) fs1)
    as (fs2 & Hrun & Hres).
  { intros out Hin. apply in_map_iff in Hin as ([k o] & <- & Hin). cbn [snd].
    pose proof (output_in_out_files ROOT _ _ Hin) as Hof.
    destruct (out_file_parent ROOT _ Hof) as [-> _].
    split; [exact Hdir|]. rewrite Hosame by exact Hof. apply Hnodir. exact Hof. }
  { intros p Hp. rewrite Htsame by exact Hp. apply Htpl. exact Hp. }
  rewrite Hrun.
  pose proof (render_loop_frame _ _ _ _ _ _ _ _ Hrun) as Hframe.
  assert (Hlines : map (item_line fs1 (main_bundle TEMPLATES info)) (outputs ROOT)
                   = map (item_line fs (main_bundle TEMPLATES info)) (outputs ROOT)).
  { apply map_ext. intros item. unfold item_line. rewrite Htext. reflexivity. }
  rewrite Hlines.
  set (lines := main_report_head TEMPLATES py_repr info
                ++ map (item_line fs (main_bundle TEMPLATES info)) (outputs ROOT)).
  assert (Hw : write_text (OUT ROOT // "report.txt") (str_join newline lines) fs2
               = (Ret tt, <[OUT ROOT // "report.txt"
                            := File (Some (str_join newline lines))]> fs2)).
  { unfold write_text. rewrite parent_pjoin.
    rewrite (Hframe (OUT ROOT)), Hdir.
    2:{ intros Hin. apply (OUT_not_out_file ROOT). unfold out_files.
        apply in_or_app. left. exact Hin. }
    rewrite (Hframe _ (report_not_output ROOT)).
    rewrite (Hosame _ (report_in_out_files ROOT)).
    pose proof (Hnodir _ (report_in_out_files ROOT)) as Hnd.
    destruct (fs !! (OUT ROOT // "report.txt")) as [[|u]|];
      [congruence|reflexivity..]. }
  rewrite Hw. eexists. split; [reflexivity|]. split.
  - apply lookup_insert_eq.
  - intros [k o] Hin. cbn [snd].
    rewrite lookup_insert_ne.
    2:{ intros Heq. apply (report_not_output ROOT). rewrite Heq.
        apply in_map_iff. exists (k, o). split; [reflexivity|exact Hin]. }
    pose proof (Hres (k, o) Hin) as Hr. cbn [snd] in Hr. rewrite Hr.
    unfold item_node. rewrite (Htext (k, o)). cbn [fst snd].
    destruct (template_text fs (bundle_get (main_bundle TEMPLATES info) k));
      [reflexivity|].
    apply Hosame. exact (output_in_out_files ROOT _ _ Hin).
Qed.

(** X11. When no input or output operation fails the run completes:
    [report.txt] holds the language line, the listing line, the notice of a
    missing built-in template for an unknown tag, then one line per output
    kind in the order docker, jenkins, gitlab; each output whose template
    exists holds the rendered template and each other output is left as it
    was. *)
Theorem program_complete (TEMPLATES : Path) (fs : FS) (info : DetectionResult) :
  fst (locate_templates THIS fs) = Ret TEMPLATES ->
  detect_language re_search json_loads ROOT fs = Ret info ->
  io_ok ROOT TEMPLATES fs info ->
  exists fs' : FS,
    program ROOT THIS environ re_search json_loads py_repr fs = (Ret tt, fs')
    /\ fs' !! (OUT ROOT // "report.txt")
       = Some (File (Some (str_join newline
           (main_report_head TEMPLATES py_repr info
            ++ map (item_line fs (main_bundle TEMPLATES info)) (outputs ROOT)))))
    /\ (forall item, In item (outputs ROOT) ->
          fs' !! snd item
          = item_node py_repr fs (main_bundle TEMPLATES info)
              (main_render_context TEMPLATES environ py_repr info) item).
Proof. exact (program_run_ok TEMPLATES fs info). Qed.


End RunMore.

(** ** Failing runs, and what no run does *)

Lemma grows_refl (fs : FS) : grows fs fs.
Proof. intros p. tauto. Qed.

Lemma grows_trans (fs1 fs2 fs3 : FS) :
  grows fs1 fs2 -> grows fs2 fs3 -> grows fs1 fs3.
Proof.
  intros H12 H23 p. destruct (H12 p) as [Hd Hs], (H23 p) as [Hd' Hs'].
  split; auto.
Qed.

Lemma write_text_grows (p : Path) (s : string) (fs fs' : FS) (o : outcome unit) :
  write_text p s fs = (o, fs') -> grows fs fs'.
Proof.
  intros H. apply write_text_inv in H
    as [(_ & -> & _)|(_ & -> & _ & Hnot)]; [apply grows_refl|].
  intros q. destruct (decide (p = q)) as [<-|Hne].
  - rewrite lookup_insert_eq. split; [contradiction|discriminate].
  - rewrite lookup_insert_ne by exact Hne. tauto.
Qed.

Lemma mkdir_exist_ok_grows (p : Path) (fs fs' : FS) (o : outcome unit) :
  mkdir_exist_ok p fs = (o, fs') -> grows fs fs'.
Proof.
  unfold mkdir_exist_ok. intros H.
  destruct (fs !! p) as [[|t]|] eqn:Hp; inversion H; subst;
    try apply grows_refl.
  intros q. destruct (decide (p = q)) as [<-|Hne].
  - rewrite lookup_insert_eq, Hp. split; [discriminate|contradiction].
  - rewrite lookup_insert_ne by exact Hne. tauto.
Qed.

Section RunErrors.

Variable ROOT : Path.
Variable THIS : Path.
Variable environ : gmap string string.
Variable re_search : string -> string -> option string.
Variable json_loads : string -> option pyval.
Variable py_repr : pyval -> string.

Lemma render_loop_grows (items : list (string * Path)) (tpl : bundle)
    (vars : dict) (lines : list string) (fs fs' : FS)
    (o : outcome (list string)) :
  render_loop py_repr items tpl vars lines fs = (o, fs') -> grows fs fs'.
Proof.
  revert lines fs. induction items as [|[key out_path] rest IH];
    intros lines fs H.
  - cbn in H. unfold ret in H. inversion H; subst. apply grows_refl.
  - rewrite render_loop_cons in H.
    destruct (render_args vars) as [args|];
      [|inversion H; subst; apply grows_refl].
    destruct (render_template py_repr fs (bundle_get tpl key) args)
      as [[c|]|]; [| |inversion H; subst; apply grows_refl].
    + destruct (write_text out_path c fs) as [[u|] fs1] eqn:Hw.
      * exact (grows_trans _ _ _ (write_text_grows _ _ _ _ _ Hw) (IH _ _ H)).
      * inversion H; subst. exact (write_text_grows _ _ _ _ _ Hw).
    + exact (IH _ _ H).
Qed.

Lemma main_grows (TEMPLATES : Path) (fs fs' : FS) (o : outcome unit) :
  main ROOT TEMPLATES environ re_search json_loads py_repr fs = (o, fs') ->
  grows fs fs'.
Proof.
  rewrite main_unfold. intros H.
  destruct (detect_language re_search json_loads ROOT fs) as [info|];
    [|inversion H; subst; apply grows_refl].
  destruct (render_loop _ _ _ _ _ fs) as [[l|] fs1] eqn:Hl.
  - exact (grows_trans _ _ _ (render_loop_grows _ _ _ _ _ _ _ Hl)
             (write_text_grows _ _ _ _ _ H)).
  - inversion H; subst. exact (render_loop_grows _ _ _ _ _ _ _ Hl).
Qed.

(** X13. No run, failing or not, removes anything or replaces a directory:
    every path that exists before the run exists after it, and every
    directory is still a directory. *)
Theorem program_never_removes (fs : FS) (p : Path) :
  let fs' := snd (program ROOT THIS environ re_search json_loads py_repr fs) in
  (fs !! p = Some Dir -> fs' !! p = Some Dir)
  /\ (path_exists fs p = true -> path_exists fs' p = true).
Proof.
  cbn zeta.
  assert (Hg : grows fs
            (snd (program ROOT THIS environ re_search json_loads py_repr fs))).
  { rewrite program_unfold.
    destruct (mkdir_exist_ok (OUT ROOT) fs) as [[u|] fs1] eqn:Hmk;
      [|exact (mkdir_exist_ok_grows _ _ _ _ Hmk)].
    apply (grows_trans _ _ _ (mkdir_exist_ok_grows _ _ _ _ Hmk)).
    destruct (locate_templates THIS fs1) as [[T|] fs2]; [|apply grows_refl].
    destruct (main ROOT T environ re_search json_loads py_repr fs1)
      as [o fs'] eqn:Hmain.
    exact (main_grows T _ _ _ Hmain). }
  destruct (Hg p) as [Hd Hs]. split; [exact Hd|].
  unfold path_exists. intros H.
  destruct (fs !! p) eqn:E; [|discriminate].
  destruct (snd (program ROOT THIS environ re_search json_loads py_repr fs) !! p);
    [reflexivity|].
  exfalso. apply Hs; [discriminate|reflexivity].
Qed.

(** X14. When the output directory exists as a regular file the script
    raises at start-up and changes nothing. *)
Theorem program_output_dir_is_file (fs : FS) (t : option string) :
  fs !! OUT ROOT = Some (File t) ->
  program ROOT THIS environ re_search json_loads py_repr fs = (Raise, fs).
Proof.
  intros H. rewrite program_unfold. unfold mkdir_exist_ok. rewrite H.
  reflexivity.
Qed.

Lemma render_template_unreadable (fs : FS) (p : Path) (vars : dict) :
  fs !! p = Some Dir \/ fs !! p = Some (File None) ->
  render_template py_repr fs (Some p) vars = Raise.
Proof.
  unfold render_template, path_exists, read_text. intros [-> | ->]; reflexivity.
Qed.

(** A template that exists and cannot be read stops the loop. *)
Lemma render_loop_unreadable (items : list (string * Path)) (tpl : bundle)
    (vars : dict) (key : string) (out_path p : Path) :
  loop_wf tpl items ->
  In (key, out_path) items ->
  bundle_get tpl key = Some p ->
  forall (lines : list string) (fs : FS),
  fs !! p = Some Dir \/ fs !! p = Some (File None) ->
  fst (render_loop py_repr items tpl vars lines fs) = Raise.
Proof.
  intros Hwf Hin Hget. induction items as [|[k0 o0] rest IH];
    intros lines fs Hbad; [destruct Hin|].
  pose proof (loop_wf_tail _ _ _ Hwf) as Hwf'.
  destruct Hwf as (_ & _ & Hdis). cbn [map snd] in Hdis.
  rewrite render_loop_cons.
  destruct (render_args vars) as [args|]; [|reflexivity].
  destruct Hin as [[= -> ->]|Hin].
  - rewrite Hget, (render_template_unreadable fs p args Hbad). reflexivity.
  - destruct (render_template py_repr fs (bundle_get tpl k0) args)
      as [[c|]|]; [| |reflexivity].
    + destruct (write_text o0 c fs) as [[u|] fs1] eqn:Hw; [|reflexivity].
      apply (IH Hwf' Hin).
      apply write_text_inv in Hw as [(H & _)|(_ & -> & _)]; [discriminate|].
      rewrite lookup_insert_ne; [exact Hbad|].
      intros ->. apply (Hdis p (bundle_get_in re_search json_loads _ _ _ Hget)).
      simpl. tauto.
    + exact (IH Hwf' Hin _ _ Hbad).
Qed.

(** X15. When a template of the run exists but cannot be read (it is a
    directory, or a file whose read fails) the run raises and [report.txt]
    is not written. *)
Theorem program_unreadable_template (TEMPLATES : Path) (fs : FS)
    (info : DetectionResult) (key : string) (out_path tpl_path : Path) :
  fst (locate_templates THIS fs) = Ret TEMPLATES ->
  detect_language re_search json_loads ROOT fs = Ret info ->
  In (key, out_path) (outputs ROOT) ->
  bundle_get (main_bundle TEMPLATES info) key = Some tpl_path ->
  fs !! tpl_path = Some Dir \/ fs !! tpl_path = Some (File None) ->
  fst (program ROOT THIS environ re_search json_loads py_repr fs) = Raise
  /\ snd (program ROOT THIS environ re_search json_loads py_repr fs)
       !! (OUT ROOT // "report.txt")
     = fs !! (OUT ROOT // "report.txt").
Proof.
  intros Hloc Hdet Hin Hget Hbad.
  destruct (fs !! OUT ROOT) as [[|t]|] eqn:Hout.
  3: assert (Hok : fs !! OUT ROOT = None \/ fs !! OUT ROOT = Some Dir)
       by (left; exact Hout).
  1: assert (Hok : fs !! OUT ROOT = None \/ fs !! OUT ROOT = Some Dir)
       by (right; exact Hout).
  2:{ rewrite program_unfold. unfold mkdir_exist_ok. rewrite Hout.
      split; reflexivity. }
  all: destruct (program_start ROOT THIS environ re_search json_loads py_repr
                   TEMPLATES fs Hloc Hok)
         as (fs1 & -> & _ & Hsame & Hdet1);
       rewrite main_unfold, Hdet1, Hdet;
       assert (Hbad1 : fs1 !! tpl_path = Some Dir
                       \/ fs1 !! tpl_path = Some (File None))
         by (rewrite Hsame; [exact Hbad|];
             intros ->;
             apply (template_not_output ROOT TEMPLATES re_search json_loads
                      info _ (bundle_get_in re_search json_loads _ _ _ Hget));
             right; reflexivity);
       pose proof (render_loop_unreadable (outputs ROOT)
                     (main_bundle TEMPLATES info)
                     (main_vars TEMPLATES environ py_repr info)
                     key out_path tpl_path
                     (outputs_wf ROOT TEMPLATES re_search json_loads info)
                     Hin Hget (main_report_head TEMPLATES py_repr info)
                     fs1 Hbad1) as Hraise;
       destruct (render_loop _ _ _ _ _ fs1) as [o2 fs2] eqn:Hl;
       cbn [fst] in Hraise; subst o2; cbn [fst snd];
       (split; [reflexivity|]);
       rewrite (render_loop_frame _ _ _ _ _ _ _ _ Hl _ (report_not_output ROOT));
       apply Hsame; apply pjoin_ne_self.
Qed.

End RunErrors.

(** ** The variables of a run *)

Lemma dict_get_set (d : dict) (k k' : string) (v : pyval) :
  dict_get (dict_set d k' v) k
  = if String.eqb k k' then Some v else dict_get d k.
Proof.
  induction d as [|[k0 v0] d IH]; cbn.
  - destruct (String.eqb k k'); reflexivity.
  - destruct (String.eqb_spec k' k0) as [->|Hne]; cbn.
    + destruct (String.eqb k k0); reflexivity.
    + destruct (String.eqb_spec k k0) as [->|Hne'].
      * destruct (String.eqb_spec k0 k'); [congruence|reflexivity].
      * exact IH.
Qed.

Lemma dict_update_cons (d : dict) (k : string) (v : pyval) (e : dict) :
  dict_update d ((k, v) :: e) = dict_update (dict_set d k v) e.
Proof. reflexivity. Qed.

Lemma dict_get_update_absent (d e : dict) (k : string) :
  dict_get e k = None -> dict_get (dict_update d e) k = dict_get d k.
Proof.
  revert d. induction e as [|[k1 v1] e IH]; intros d H; [reflexivity|].
  cbn [dict_get] in H. rewrite dict_update_cons.
  destruct (String.eqb k k1) eqn:E; [discriminate|].
  rewrite (IH _ H), dict_get_set, E. reflexivity.
Qed.

Lemma dict_get_update_present (d e : dict) (k : string) (v : pyval) :
  NoDup (map fst e) -> dict_get e k = Some v ->
  dict_get (dict_update d e) k = Some v.
Proof.
  revert d. induction e as [|[k1 v1] e IH]; intros d Hnd H; [discriminate|].
  cbn [map fst] in Hnd. apply NoDup_cons in Hnd as [Hk1 Hnd].
  cbn [dict_get] in H. rewrite dict_update_cons.
  destruct (String.eqb_spec k k1) as [->|Hne].
  - injection H as ->. rewrite dict_get_update_absent.
    + rewrite dict_get_set, String.eqb_refl. reflexivity.
    + destruct (dict_get e k1) eqn:E; [|reflexivity].
      exfalso. apply Hk1. rewrite list_elem_of_In. clear -E.
      induction e as [|[k2 v2] e IHe]; [discriminate|].
      cbn in E |- *. destruct (String.eqb_spec k1 k2) as [->|]; [tauto|].
      right. exact (IHe E).
  - exact (IH _ Hnd H).
Qed.

Section VariablesFacts.

Variable ROOT : Path.
Variable TEMPLATES : Path.
Variable environ : gmap string string.
Variable re_search : string -> string -> option string.
Variable json_loads : string -> option pyval.
Variable py_repr : pyval -> string.

Lemma details_of_keys (fs : FS) (root : Path) :
  NoDup (map fst (details_of re_search json_loads fs root))
  /\ (forall k, In k ["BUILD_CMD"; "TEST_CMD"; "CACHE_DIR"; "PROJECT_NAME";
                      "IMAGE_NAME"; "SONAR_HOST"; "NEXUS_URL"] ->
        dict_get (details_of re_search json_loads fs root) k = None).
Proof.
  unfold details_of.
  destruct (String.eqb (marker_tag fs root) "java");
    [destruct (path_exists fs (root // "pom.xml"))|].
  3: destruct (String.eqb (marker_tag fs root) "go").
  4: destruct (String.eqb (marker_tag fs root) "node");
       [destruct (package_of json_loads fs root); cbn [node_details]|].
  6: destruct (String.eqb (marker_tag fs root) "python");
       [destruct (path_exists fs (root // "pyproject.toml"))|].
  all: split;
    [ cbn [map fst];
      repeat (apply NoDup_cons_2;
              [rewrite list_elem_of_In; cbn; intuition discriminate|]);
      apply NoDup_nil_2
    | intros k Hk; cbn in Hk;
      repeat (destruct Hk as [<-|Hk]; [reflexivity|]); contradiction ].
Qed.

(** X16. The variables of a run hold every detail of the detection under
    its key, and no detail displaces the build command, the test command or
    the cache directory, which are those of the bundle. *)
Theorem main_vars_details (fs : FS) (info : DetectionResult) :
  detect_language re_search json_loads ROOT fs = Ret info ->
  (forall k v, dict_get (details info) k = Some v ->
     dict_get (main_vars TEMPLATES environ py_repr info) k = Some v)
  /\ dict_get (main_vars TEMPLATES environ py_repr info) "BUILD_CMD"
     = Some (PStr (build_cmd (main_bundle TEMPLATES info)))
  /\ dict_get (main_vars TEMPLATES environ py_repr info) "TEST_CMD"
     = Some (PStr (test_cmd (main_bundle TEMPLATES info)))
  /\ dict_get (main_vars TEMPLATES environ py_repr info) "CACHE_DIR"
     = Some (PStr (cache (main_bundle TEMPLATES info))).
Proof.
  intros Hdet.
  destruct (detect_language_returns re_search json_loads ROOT fs)
    as (info' & Hdet' & _ & Hdetails).
  rewrite Hdet in Hdet'. injection Hdet' as <-.
  destruct (details_of_keys fs ROOT) as [Hnd Hupper].
  rewrite <- Hdetails in Hnd, Hupper.
  unfold main_vars. split.
  - intros k v Hk. apply dict_get_update_present; assumption.
  - repeat split; (rewrite dict_get_update_absent;
                   [reflexivity|apply Hupper; cbn; tauto]).
Qed.

(** X17. A registry image of the environment, when not empty, is the image
    name of the run; the code-quality host and the artifact-repository URL
    are those of the environment when set, even to the empty string, and
    the built-in defaults otherwise. *)
Theorem main_vars_environment (fs : FS) (info : DetectionResult) :
  detect_language re_search json_loads ROOT fs = Ret info ->
  (forall s, environ !! "CI_REGISTRY_IMAGE" = Some s -> s <> EmptyString ->
     dict_get (main_vars TEMPLATES environ py_repr info) "IMAGE_NAME"
     = Some (PStr s))
  /\ (forall s, environ !! "SONAR_HOST" = Some s ->
        dict_get (main_vars TEMPLATES environ py_repr info) "SONAR_HOST"
        = Some (PStr s))
  /\ (environ !! "SONAR_HOST" = None ->
      dict_get (main_vars TEMPLATES environ py_repr info) "SONAR_HOST"
      = Some (PStr "http://sonarqube:9000"))
  /\ (forall s, environ !! "NEXUS_URL" = Some s ->
        dict_get (main_vars TEMPLATES environ py_repr info) "NEXUS_URL"
        = Some (PStr s))
  /\ (environ !! "NEXUS_URL" = None ->
      dict_get (main_vars TEMPLATES environ py_repr info) "NEXUS_URL"
      = Some (PStr "http://nexus:8081")).
Proof.
  intros Hdet.
  destruct (detect_language_returns re_search json_loads ROOT fs)
    as (info' & Hdet' & _ & Hdetails).
  rewrite Hdet in Hdet'. injection Hdet' as <-.
  destruct (details_of_keys fs ROOT) as [_ Hupper].
  rewrite <- Hdetails in Hupper.
  unfold main_vars, env_get.
  repeat split; intros;
    (rewrite dict_get_update_absent; [|apply Hupper; cbn; tauto]); cbn.
  - match goal with H : environ !! _ = Some _ |- _ => rewrite H end. cbn.
    destruct s; [contradiction|reflexivity].
  - match goal with H : environ !! _ = Some _ |- _ => rewrite H end. reflexivity.
  - match goal with H : environ !! _ = None |- _ => rewrite H end. reflexivity.
  - match goal with H : environ !! _ = Some _ |- _ => rewrite H end. reflexivity.
  - match goal with H : environ !! _ = None |- _ => rewrite H end. reflexivity.
Qed.

(** X18. For a node project whose [package.json] names the package with a
    non-empty string, that string is the project name of the run, and the
    image name is it followed by [":latest"] unless the environment gives a
    registry image. *)
Theorem node_project_name (fs : FS) (text : string) (d : dict) (s : string) :
  (forall x, In x ["pom.xml"; "build.gradle"; "build.gradle.kts"; "go.mod"] ->
     path_exists fs (ROOT // x) = false) ->
  read_text fs (ROOT // "package.json") = Ret text ->
  json_loads text = Some (PDict d) ->
  dict_get d "name" = Some (PStr s) ->
  s <> EmptyString ->
  exists info,
    detect_language re_search json_loads ROOT fs = Ret info
    /\ main_project_name info = PStr s
    /\ dict_get (main_vars TEMPLATES environ py_repr info) "PROJECT_NAME"
       = Some (PStr s)
    /\ (environ !! "CI_REGISTRY_IMAGE" = None ->
        dict_get (main_vars TEMPLATES environ py_repr info) "IMAGE_NAME"
        = Some (PStr (s +:+ ":latest"))).
Proof.
  intros Hnone Hread Hjson Hname Hs.
  pose proof (read_text_exists _ _ _ Hread) as Hpkg.
  destruct (detect_language_returns re_search json_loads ROOT fs)
    as (info & Hdet & _ & Hdetails).
  assert (Hnode : marker_tag fs ROOT = "node").
  { unfold marker_tag, markers. cbn [find].
    rewrite !Hnone by (simpl; tauto). rewrite Hpkg. reflexivity. }
  assert (Hd : details info
               = [ ("name", PStr s);
                   ("scripts", default (PDict []) (dict_get d "scripts"));
                   ("engines", default PNone (dict_get d "engines")) ]).
  { rewrite Hdetails. unfold details_of, package_of.
    rewrite Hnode, Hread, Hjson. cbn. rewrite Hname. reflexivity. }
  assert (Hpn : main_project_name info = PStr s).
  { unfold main_project_name. rewrite Hd. cbn.
    destruct s; [contradiction|reflexivity]. }
  exists info. split; [exact Hdet|]. split; [exact Hpn|].
  unfold main_vars. rewrite Hpn, Hd. split; [reflexivity|].
  intros Henv. cbn. rewrite Henv. reflexivity.
Qed.

End VariablesFacts.

(** ** The python manifest *)

Section DetectionPython.

Variable re_search : string -> string -> option string.
Variable json_loads : string -> option pyval.

(** X19. For a python project with a readable [pyproject.toml] the detail
    [python_requires] is what the search for the [python = "..."] entry
    gives, [None] when it finds nothing, whether or not the project also
    has a [requirements.txt] or a [setup.py]. *)
Theorem detect_python_requires (root : Path) (fs : FS) (txt : string) :
  (forall x, In x ["pom.xml"; "build.gradle"; "build.gradle.kts"; "go.mod";
                   "package.json"] ->
     path_exists fs (root // x) = false) ->
  read_text fs (root // "pyproject.toml") = Ret txt ->
  exists info,
    detect_language re_search json_loads root fs = Ret info
    /\ language info = Some "python"
    /\ details info
       = [("python_requires", of_str_option (re_search pat_python txt))].
Proof.
  intros Hnone Hread. pose proof (read_text_exists _ _ _ Hread) as Hpy.
  destruct (detect_language_returns re_search json_loads root fs)
    as (info & Hdet & Htag & Hdetails).
  assert (Hp : marker_tag fs root = "python").
  { unfold marker_tag, markers. cbn [find].
    rewrite !Hnone by (simpl; tauto). rewrite Hpy. reflexivity. }
  exists info. split; [exact Hdet|]. rewrite Htag, Hdetails, Hp.
  split; [reflexivity|].
  unfold details_of, python_requires_of. rewrite Hp, Hpy, Hread. reflexivity.
Qed.

End DetectionPython.

(** ** The search for the templates directory *)

Lemma py_parents_ret (p : Path) (i : nat) :
  i + 1 < length p -> py_parents p i = Ret (take (length p - (i + 1)) p).
Proof.
  intros H. unfold py_parents.
  destruct (Nat.ltb_spec (i + 1) (length p)); [reflexivity|lia].
Qed.

Lemma py_parents_raise (p : Path) (i : nat) :
  length p <= i + 1 -> py_parents p i = Raise.
Proof.
  intros H. unfold py_parents.
  destruct (Nat.ltb_spec (i + 1) (length p)); [lia|reflexivity].
Qed.

(** X20. The search raises exactly when the script lies too close to the
    root of the file system: its path has at most two parts, or it has
    three and the first candidate directory does not exist. *)
Theorem locate_templates_raises (THIS : Path) (fs : FS) :
  fst (locate_templates THIS fs) = Raise
  <-> length THIS <= 2
      \/ (length THIS = 3
          /\ path_exists fs (take 1 THIS // "templates") = false).
Proof.
  unfold locate_templates.
  destruct (le_lt_dec (length THIS) 2) as [H2|H2].
  - rewrite (py_parents_raise THIS 1) by (cbn; lia). cbn. tauto.
  - rewrite (py_parents_ret THIS 1) by (cbn; lia). cbn [Nat.add].
    destruct (path_exists fs (take (length THIS - 2) THIS // "templates"))
      eqn:E1.
    + cbn. split; [discriminate|]. intros [H|[H3 H]]; [lia|].
      rewrite H3 in E1. change (3 - 2) with 1 in E1. congruence.
    + destruct (le_lt_dec (length THIS) 3) as [H3|H3].
      * rewrite (py_parents_raise THIS 2) by (cbn; lia). cbn.
        split; [|reflexivity]. intros _. right.
        assert (Hl : length THIS = 3) by lia. split; [exact Hl|].
        rewrite Hl in E1. exact E1.
      * rewrite (py_parents_ret THIS 2) by (cbn; lia). cbn [Nat.add].
        destruct (path_exists fs (take (length THIS - 3) THIS // "templates"));
          cbn; (split; [discriminate|]); intros [H|[H _]]; lia.
Qed.

(** X21. For a script at least three directories deep the search changes
    nothing and returns the [templates] directory beside the directory of
    the script when it exists, else the one a level above when it exists,
    and else the one inside the directory of the script, whether that one
    exists or not. *)
Theorem locate_templates_priority (THIS : Path) (fs : FS) :
  3 < length THIS ->
  exists T,
    locate_templates THIS fs = (Ret T, fs)
    /\ (path_exists fs (take (length THIS - 2) THIS // "templates") = true ->
        T = take (length THIS - 2) THIS // "templates")
    /\ (path_exists fs (take (length THIS - 2) THIS // "templates") = false ->
        path_exists fs (take (length THIS - 3) THIS // "templates") = true ->
        T = take (length THIS - 3) THIS // "templates")
    /\ (path_exists fs (take (length THIS - 2) THIS // "templates") = false ->
        path_exists fs (take (length THIS - 3) THIS // "templates") = false ->
        T = parent THIS // "templates").
Proof.
  intros Hlen. unfold locate_templates.
  rewrite (py_parents_ret THIS 1), (py_parents_ret THIS 2) by (cbn; lia).
  cbn [Nat.add].
  destruct (path_exists fs (take (length THIS - 2) THIS // "templates")).
  - eexists. split; [reflexivity|]. repeat split; try discriminate.
  - destruct (path_exists fs (take (length THIS - 3) THIS // "templates")).
    + eexists. split; [reflexivity|]. repeat split; try discriminate.
    + eexists. split; [reflexivity|]. repeat split; try discriminate.
Qed.

Section StartUp.

Variable ROOT : Path.
Variable THIS : Path.
Variable environ : gmap string string.
Variable re_search : string -> string -> option string.
Variable json_loads : string -> option pyval.
Variable py_repr : pyval -> string.

(** X22. A script directly under the root of the file system makes the run
    raise at start-up, after the output directory has been created: that
    directory is the only change. *)
Theorem program_script_near_root (fs : FS) :
  length THIS <= 2 ->
  fs !! OUT ROOT = None ->
  program ROOT THIS environ re_search json_loads py_repr fs
  = (Raise, <[OUT ROOT := Dir]> fs).
Proof.
  intros Hlen Hout. rewrite program_unfold. unfold mkdir_exist_ok.
  rewrite Hout. unfold locate_templates.
  rewrite (py_parents_raise THIS 1) by (cbn; lia). reflexivity.
Qed.

(** X23. When no candidate directory exists the run goes on with the
    fallback directory and completes: no output is written, and
    [report.txt] holds, after the head lines, one line per output kind that
    names the template not found under the fallback directory. *)
Theorem program_without_templates (fs : FS) (info : DetectionResult) :
  3 < length THIS ->
  path_exists fs (take (length THIS - 2) THIS // "templates") = false ->
  path_exists fs (take (length THIS - 3) THIS // "templates") = false ->
  detect_language re_search json_loads ROOT fs = Ret info ->
  fs !! OUT ROOT = None \/ fs !! OUT ROOT = Some Dir ->
  (forall p,
     In p (template_paths (main_bundle (parent THIS // "templates") info)) ->
     fs !! p = None) ->
  (forall p, In p (out_files ROOT) -> fs !! p <> Some Dir) ->
  exists fs' : FS,
    program ROOT THIS environ re_search json_loads py_repr fs = (Ret tt, fs')
    /\ (forall item, In item (outputs ROOT) -> fs' !! snd item = fs !! snd item)
    /\ fs' !! (OUT ROOT // "report.txt")
       = Some (File (Some (str_join newline
           (main_report_head (parent THIS // "templates") py_repr info
            ++ map (fun item =>
                      not_found_line (fst item)
                        (bundle_get
                           (main_bundle (parent THIS // "templates") info)
                           (fst item)))
                   (outputs ROOT))))).
Proof.
  intros Hlen H1 H2 Hdet Hout Htpl Hnodir.
  set (T := parent THIS // "templates") in *.
  assert (Hloc : fst (locate_templates THIS fs) = Ret T).
  { unfold locate_templates.
    rewrite (py_parents_ret THIS 1), (py_parents_ret THIS 2) by (cbn; lia).
    cbn [Nat.add]. rewrite H1, H2. reflexivity. }
  assert (Htext : forall item : string * Path,
            template_text fs (bundle_get (main_bundle T info) (fst item))
            = None).
  { intros item. unfold template_text.
    destruct (bundle_get (main_bundle T info) (fst item)) as [p|] eqn:Hb;
      [|reflexivity].
    rewrite (Htpl p (bundle_get_in re_search json_loads _ _ _ Hb)).
    reflexivity. }
  destruct (program_run_ok ROOT THIS environ re_search json_loads py_repr
              T fs info Hloc Hdet) as (fs' & Hrun & Hrep & Hres).
  { split; [exact Hout|]. split; [|exact Hnodir].
    intros p Hp. left. exact (Htpl p Hp). }
  exists fs'. split; [exact Hrun|]. split.
  - intros item Hin. rewrite (Hres item Hin). unfold item_node.
    rewrite Htext. reflexivity.
  - rewrite Hrep.
    rewrite (map_ext (item_line fs (main_bundle T info))
               (fun item => not_found_line (fst item)
                              (bundle_get (main_bundle T info) (fst item))));
      [reflexivity|].
    intros item. unfold item_line. rewrite Htext. reflexivity.
Qed.

End StartUp.

(** ** The further properties on the sample projects *)

Ltac absent_markers :=
  let x := fresh "x" in
  let Hx := fresh "Hx" in
  intros x Hx; cbn in Hx;
  repeat (destruct Hx as [<-|Hx]; [reflexivity|]); contradiction.

(** In the sample Go module [go.mod] is the first marker that exists. *)
Lemma detect_first_marker_witness :
  path_exists demo_fs (demo_root // "go.mod") = true
  /\ exists info,
       detect_language demo_re_search demo_json_loads demo_root demo_fs
       = Ret info
       /\ language info = Some "go".
Proof.
  split; [reflexivity|].
  destruct (detect_first_marker demo_re_search demo_json_loads demo_root
              demo_fs ["pom.xml"; "build.gradle"; "build.gradle.kts"] "go.mod"
              ["package.json"; "pyproject.toml"; "requirements.txt"; "setup.py"])
    as (info & Hdet & Hlang).
  - reflexivity.
  - absent_markers.
  - reflexivity.
  - exists info. split; [exact Hdet|exact Hlang].
Defined.

(** The sample [pom.xml] gives 17 for [maven.compiler.source] and 11 for
    [java.version]: 17 is recorded. *)
Lemma detect_java_version_preference_witness :
  read_text sample_fs_maven (demo_root // "pom.xml") = Ret sample_pom
  /\ sample_re_search pat_java_version sample_pom = Some "11"
  /\ exists info,
       detect_language sample_re_search sample_json_loads demo_root
         sample_fs_maven = Ret info
       /\ language info = Some "java"
       /\ details info = [("java_version", PStr "17")].
Proof.
  split; [reflexivity|]. split; [reflexivity|].
  destruct (detect_java_version_preference sample_re_search sample_json_loads
              demo_root sample_fs_maven sample_pom)
    as (info & Hdet & Hlang & Hsource & _).
  - reflexivity.
  - exists info. split; [exact Hdet|]. split; [exact Hlang|].
    apply Hsource. reflexivity.
Defined.

(** The sample node package. *)
Lemma detect_node_details_witness :
  read_text sample_fs_node (demo_root // "package.json") = Ret sample_package
  /\ exists info,
       detect_language sample_re_search sample_json_loads demo_root
         sample_fs_node = Ret info
       /\ language info = Some "node"
       /\ details info
          = [("name", PStr "shop"); ("scripts", PDict []); ("engines", PNone)].
Proof.
  split; [reflexivity|].
  destruct (detect_node_details sample_re_search sample_json_loads demo_root
              sample_fs_node sample_package [("name", PStr "shop")])
    as (info & Hdet & Hlang & Hdetails).
  - absent_markers.
  - reflexivity.
  - reflexivity.
  - exists info. split; [exact Hdet|]. split; [exact Hlang|exact Hdetails].
Defined.

(** The sample Go module. *)
Lemma detect_go_first_line_witness :
  read_text demo_fs (demo_root // "go.mod") = Ret "module demo"
  /\ exists info first rest,
       detect_language demo_re_search demo_json_loads demo_root demo_fs
       = Ret info
       /\ details info = [("go_mod_first", PStr first)]
       /\ "module demo" = first +:+ rest.
Proof.
  split; [reflexivity|].
  destruct (detect_go_first_line demo_re_search demo_json_loads demo_root
              demo_fs "module demo")
    as (info & first & rest & Hdet & _ & Hdetails & Hsplit & _).
  - absent_markers.
  - reflexivity.
  - discriminate.
  - exists info, first, rest. split; [exact Hdet|].
    split; [exact Hdetails|exact Hsplit].
Defined.

(** One more file and one more directory beside [go.mod]. *)
Lemma detect_depends_on_markers_witness :
  sample_fs_readme !! (demo_root // "README.md") <> demo_fs !! (demo_root // "README.md")
  /\ exists info info',
       detect_language demo_re_search demo_json_loads demo_root demo_fs
       = Ret info
       /\ detect_language demo_re_search demo_json_loads demo_root
            sample_fs_readme = Ret info'
       /\ language info = language info'
       /\ details info = details info'.
Proof.
  split; [discriminate|].
  apply (detect_depends_on_markers demo_re_search demo_json_loads demo_root
           demo_fs sample_fs_readme).
  absent_markers.
Defined.

(** The sample container template rendered with keys it does not use. *)
Lemma render_template_no_token_witness :
  example_fs !! example_path = Some (File (Some (flatten example_segs)))
  /\ render_template demo_repr example_fs (Some example_path) sample_vars_other
     = Ret (Some "RUN {{BUILD_CMD}} # {{PROJECT_NAME}} {{UNKNOWN_VAR}}").
Proof.
  split; [reflexivity|].
  apply (render_template_no_token demo_repr example_fs example_path
           (flatten example_segs) sample_vars_other).
  - reflexivity.
  - intros k v Hin. cbn in Hin.
    destruct Hin as [[= <- <-]|[[= <- <-]|[]]]; reflexivity.
Defined.

(** The run on the sample Go module. *)
Lemma program_complete_witness :
  io_ok demo_root demo_templates demo_fs demo_info
  /\ exists fs' : FS,
       program demo_root demo_this demo_environ demo_re_search
         demo_json_loads demo_repr demo_fs = (Ret tt, fs')
       /\ fs' !! (OUT demo_root // "report.txt")
          = Some (File (Some (str_join newline
              [ "language: go"; "found_files: <object>";
                "Wrote /work/demo/.ci-generated/Dockerfile";
                "Template for jenkins not found: /opt/tool/templates/jenkins/Jenkinsfile.go";
                "Wrote /work/demo/.ci-generated/.gitlab-ci.yml" ])))
       /\ fs' !! (OUT demo_root // ".gitlab-ci.yml")
          = Some (File (Some "script: go test ./..."))
       /\ fs' !! (OUT demo_root // "Jenkinsfile") = None.
Proof.
  split; [exact demo_io_ok|].
  destruct (program_complete demo_root demo_this demo_environ demo_re_search
              demo_json_loads demo_repr demo_templates demo_fs demo_info)
    as (fs' & Hrun & Hreport & Hres).
  - reflexivity.
  - reflexivity.
  - exact demo_io_ok.
  - exists fs'. split; [exact Hrun|]. split; [rewrite Hreport; reflexivity|].
    split.
    + etransitivity;
        [apply (Hres ("gitlab", OUT demo_root // ".gitlab-ci.yml")); cbn; tauto
        |reflexivity].
    + etransitivity;
        [apply (Hres ("jenkins", OUT demo_root // "Jenkinsfile")); cbn; tauto
        |reflexivity].
Defined.


(** A stale regular file named [.ci-generated]. *)
Lemma program_output_dir_is_file_witness :
  sample_fs_out_file !! OUT demo_root = Some (File (Some "stale"))
  /\ program demo_root demo_this demo_environ demo_re_search demo_json_loads
       demo_repr sample_fs_out_file
     = (Raise, sample_fs_out_file).
Proof.
  split; [reflexivity|].
  apply (program_output_dir_is_file demo_root demo_this demo_environ
           demo_re_search demo_json_loads demo_repr sample_fs_out_file
           (Some "stale")).
  reflexivity.
Defined.

(** A directory in the place of the CI template of the sample Go module. *)
Lemma program_unreadable_template_witness :
  sample_fs_unreadable !! (demo_templates // "gitlab" // ".gitlab-ci.go.yml")
  = Some Dir
  /\ fst (program demo_root demo_this demo_environ demo_re_search
            demo_json_loads demo_repr sample_fs_unreadable) = Raise
  /\ snd (program demo_root demo_this demo_environ demo_re_search
            demo_json_loads demo_repr sample_fs_unreadable)
       !! (OUT demo_root // "report.txt") = None.
Proof.
  split; [reflexivity|].
  destruct (program_unreadable_template demo_root demo_this demo_environ
              demo_re_search demo_json_loads demo_repr demo_templates
              sample_fs_unreadable demo_info
              "gitlab" (OUT demo_root // ".gitlab-ci.yml")
              (demo_templates // "gitlab" // ".gitlab-ci.go.yml"))
    as (Hraise & Hreport).
  - reflexivity.
  - reflexivity.
  - cbn. tauto.
  - reflexivity.
  - left. reflexivity.
  - split; [exact Hraise|]. rewrite Hreport. reflexivity.
Defined.

(** The variables of the run on the sample Go module. *)
Lemma main_vars_details_witness :
  detect_language demo_re_search demo_json_loads demo_root demo_fs
  = Ret demo_info
  /\ dict_get (main_vars demo_templates demo_environ demo_repr demo_info)
       "go_mod_first" = Some (PStr "module demo")
  /\ dict_get (main_vars demo_templates demo_environ demo_repr demo_info)
       "BUILD_CMD" = Some (PStr "go build -v ./...").
Proof.
  split; [reflexivity|].
  destruct (main_vars_details demo_root demo_templates demo_environ
              demo_re_search demo_json_loads demo_repr demo_fs demo_info)
    as (Hdetails & Hbuild & _).
  - reflexivity.
  - split; [apply Hdetails; reflexivity|]. rewrite Hbuild. reflexivity.
Defined.

(** A registry image and an empty code-quality host in the environment. *)
Lemma main_vars_environment_witness :
  detect_language demo_re_search demo_json_loads demo_root demo_fs
  = Ret demo_info
  /\ dict_get (main_vars demo_templates sample_environ demo_repr demo_info)
       "IMAGE_NAME" = Some (PStr "registry.local/shop")
  /\ dict_get (main_vars demo_templates sample_environ demo_repr demo_info)
       "SONAR_HOST" = Some (PStr EmptyString)
  /\ dict_get (main_vars demo_templates sample_environ demo_repr demo_info)
       "NEXUS_URL" = Some (PStr "http://nexus:8081").
Proof.
  split; [reflexivity|].
  destruct (main_vars_environment demo_root demo_templates sample_environ
              demo_re_search demo_json_loads demo_repr demo_fs demo_info)
    as (Himage & Hsonar & _ & _ & Hnexus).
  - reflexivity.
  - split; [apply Himage; [reflexivity|discriminate]|].
    split; [apply Hsonar; reflexivity|]. apply Hnexus. reflexivity.
Defined.

(** The sample node package names itself [shop]. *)
Lemma node_project_name_witness :
  dict_get [("name", PStr "shop")] "name" = Some (PStr "shop")
  /\ exists info,
       detect_language sample_re_search sample_json_loads demo_root
         sample_fs_node = Ret info
       /\ dict_get (main_vars demo_templates demo_environ demo_repr info)
            "PROJECT_NAME" = Some (PStr "shop")
       /\ dict_get (main_vars demo_templates demo_environ demo_repr info)
            "IMAGE_NAME" = Some (PStr "shop:latest").
Proof.
  split; [reflexivity|].
  destruct (node_project_name demo_root demo_templates demo_environ
              sample_re_search sample_json_loads demo_repr sample_fs_node
              sample_package [("name", PStr "shop")] "shop")
    as (info & Hdet & _ & Hname & Himage).
  - absent_markers.
  - reflexivity.
  - reflexivity.
  - reflexivity.
  - discriminate.
  - exists info. split; [exact Hdet|]. split; [exact Hname|].
    apply Himage. reflexivity.
Defined.

(** The sample [pyproject.toml]. *)
Lemma detect_python_requires_witness :
  read_text sample_fs_python (demo_root // "pyproject.toml")
  = Ret sample_pyproject
  /\ exists info,
       detect_language sample_re_search sample_json_loads demo_root
         sample_fs_python = Ret info
       /\ language info = Some "python"
       /\ details info = [("python_requires", PStr "^3.11")].
Proof.
  split; [reflexivity|].
  destruct (detect_python_requires sample_re_search sample_json_loads
              demo_root sample_fs_python sample_pyproject)
    as (info & Hdet & Hlang & Hdetails).
  - absent_markers.
  - reflexivity.
  - exists info. split; [exact Hdet|]. split; [exact Hlang|exact Hdetails].
Defined.

(** The sample script lies in [/opt/tool/tools], and [/opt/tool/templates]
    exists. *)
Lemma locate_templates_priority_witness :
  3 < length demo_this
  /\ locate_templates demo_this demo_fs = (Ret demo_templates, demo_fs).
Proof.
  split; [cbn; lia|].
  destruct (locate_templates_priority demo_this demo_fs) as (T & Hrun & Hfirst & _).
  - cbn. lia.
  - rewrite Hrun, Hfirst; reflexivity.
Defined.

(** The script at [/analyze_and_generate.py]. *)
Lemma program_script_near_root_witness :
  length sample_this_shallow <= 2
  /\ program demo_root sample_this_shallow demo_environ demo_re_search
       demo_json_loads demo_repr demo_fs
     = (Raise, <[OUT demo_root := Dir]> demo_fs).
Proof.
  split; [cbn; lia|].
  apply (program_script_near_root demo_root sample_this_shallow demo_environ
           demo_re_search demo_json_loads demo_repr demo_fs).
  - cbn. lia.
  - reflexivity.
Defined.

(** The project without marker files, and no templates directory at all. *)
Lemma program_without_templates_witness :
  path_exists demo_fs_plain (demo_templates) = false
  /\ exists fs' : FS,
       program demo_root demo_this demo_environ demo_re_search
         demo_json_loads demo_repr demo_fs_plain = (Ret tt, fs')
       /\ fs' !! (OUT demo_root // "Dockerfile") = None
       /\ fs' !! (OUT demo_root // "report.txt")
          = Some (File (Some (str_join newline
              [ "language: unknown"; "found_files: <object>";
                "No built-in template for detected language. Provide justification to add support.";
                "Template for docker not found: /opt/tool/tools/templates/docker/Dockerfile.generic";
                "Template for jenkins not found: /opt/tool/tools/templates/jenkins/Jenkinsfile.generic";
                "Template for gitlab not found: /opt/tool/tools/templates/gitlab/.gitlab-ci.generic.yml" ]))).
Proof.
  split; [reflexivity|].
  destruct (program_without_templates demo_root demo_this demo_environ
              demo_re_search demo_json_loads demo_repr demo_fs_plain
              {| language := Some "unknown"; details := [];
                 found_files := ["README.md"] |})
    as (fs' & Hrun & Hkeep & Hreport).
  - cbn. lia.
  - reflexivity.
  - reflexivity.
  - reflexivity.
  - left. reflexivity.
  - intros p Hp. cbn in Hp. destruct Hp as [<-|[<-|[<-|[]]]]; reflexivity.
  - intros p Hp. cbn in Hp.
    destruct Hp as [<-|[<-|[<-|[<-|[]]]]]; discriminate.
  - exists fs'. split; [exact Hrun|]. split.
    + etransitivity;
        [apply (Hkeep ("docker", OUT demo_root // "Dockerfile")); cbn; tauto
        |reflexivity].
    + rewrite Hreport. reflexivity.
Defined.
